(** * e4stream: the E4 streaming-server client, its line decoder and its
      command/acknowledgement exchanges

    A shallow embedding of [src/e4stream/client.py] (class [E4Client]) and of
    the message tables of [src/e4stream/messages.py].

    Conventions of the embedding.
    - Text is [string]; a character is a code point below 256.  The wire
      protocol is ASCII, so [encode()] and [decode('utf-8')] are the identity
      on the texts considered here and are not modelled.
    - A Python exception is a value [Raise e] of the type [result]; the
      exceptions that occur are [IndexError] (a list index out of range),
      [ValueError] (the builtin [float] rejecting its argument),
      [SocketTimeout] ([socket.timeout]) and [AttributeError] (a name that an
      object does not have).
    - The builtin [float] is a parameter of the development: every statement
      holds whatever text-to-number function is plugged in.
    - The socket is an external collaborator: the texts it delivers are a
      script ([inbox]), every call made on it is recorded in a [trace],
      together with the calls made on the [logging] module.  A [recv] may
      time out; the other calls on the socket are taken to succeed.
    - In [client.py] the name [msg] is the module [messages], whose names
      are [Enum], [_Send], [_Receive] and [Messages]: the lookups [msg.SEND]
      and [msg.RECV] of [subscribe] and [disconnect] raise [AttributeError].
    - The defaults of [config], a module that is not among the sources, are
      constructor arguments of the client. *)

From Stdlib Require Import String Ascii List Bool Arith ZArith QArith Lia.
Import ListNotations.

Close Scope Q_scope.
Open Scope list_scope.
Open Scope string_scope.

(* ================================================================== *)
(** * Python string operations *)
(* ================================================================== *)

Module PyStr.

(** The line feed, ["\n"], and the carriage return, ["\r"]. *)
Definition LF : ascii := "010"%char.
Definition CR : ascii := "013"%char.

Definition lf : string := String LF "".
Definition crlf : string := String CR (String LF "").

(** [p in s] restricted to a prefix test: does [s] start with [p]? *)
Fixpoint starts_with (p s : string) : bool :=
  match p, s with
  | EmptyString, _ => true
  | String _ _, EmptyString => false
  | String a p', String b s' => Ascii.eqb a b && starts_with p' s'
  end.

(** [needle in hay] on [str]: substring containment. *)
Fixpoint contains (needle hay : string) : bool :=
  starts_with needle hay ||
  match hay with
  | EmptyString => false
  | String _ hay' => contains needle hay'
  end.

(** [s.split(sep)] for a one-character separator: never the empty list,
    empty fields are kept. *)
Fixpoint split_on (sep : ascii) (s : string) : list string :=
  match s with
  | EmptyString => [EmptyString]
  | String c s' =>
      if Ascii.eqb c sep then EmptyString :: split_on sep s'
      else match split_on sep s' with
           | field :: fields => String c field :: fields
           | [] => [String c EmptyString]
           end
  end.

(** The characters [str.split()] treats as white space, among the code
    points below 256: TAB, LF, VT, FF, CR, the separators FS, GS, RS, US,
    the space, NEL (0x85) and the no-break space (0xA0). *)
Definition is_space (c : ascii) : bool :=
  let n := nat_of_ascii c in
  (((9 <=? n) && (n <=? 13)) || ((28 <=? n) && (n <=? 32))
   || (n =? 133) || (n =? 160))%nat.

(** [s.split()] with no argument: the maximal runs of non-space
    characters, in order; no empty token. *)
Fixpoint split_ws (s : string) : list string :=
  match s with
  | EmptyString => []
  | String c s' =>
      if is_space c then split_ws s'
      else match s' with
           | EmptyString => [String c EmptyString]
           | String c' _ =>
               if is_space c' then String c EmptyString :: split_ws s'
               else match split_ws s' with
                    | tok :: toks => String c tok :: toks
                    | [] => [String c EmptyString]
                    end
           end
  end.

(** [s.replace(a, b)] for one-character [a] and [b]: every occurrence. *)
Fixpoint replace (a b : ascii) (s : string) : string :=
  match s with
  | EmptyString => EmptyString
  | String c s' => String (if Ascii.eqb c a then b else c) (replace a b s')
  end.

(** [sep.join(parts)]. *)
Fixpoint join (sep : string) (parts : list string) : string :=
  match parts with
  | [] => EmptyString
  | [p] => p
  | p :: ps => p ++ sep ++ join sep ps
  end.

(** No character of [s] is white space. *)
Fixpoint no_space (s : string) : bool :=
  match s with
  | EmptyString => true
  | String c s' => negb (is_space c) && no_space s'
  end.

(** [s.endswith(c)] for a character. *)
Fixpoint ends_with_char (c : ascii) (s : string) : bool :=
  match s with
  | EmptyString => false
  | String a EmptyString => Ascii.eqb a c
  | String _ s' => ends_with_char c s'
  end.

End PyStr.

Import PyStr.


(* ================================================================== *)
(** * Outcomes of a call *)
(* ================================================================== *)

(** The exceptions the client can meet. *)
Inductive exn : Type :=
| IndexError      (* a list index out of range *)
| ValueError      (* [float] given a text that is no number *)
| SocketTimeout   (* [socket.timeout] *)
| AttributeError. (* a name looked up on an object that does not have it *)

(** What a call comes to: a value, an exception, or, for the one unbounded
    loop of the client, an iteration budget used up before the loop left. *)
Inductive result (A : Type) : Type :=
| Ok (a : A)
| Raise (e : exn)
| Unfinished.

Arguments Ok {A} a.
Arguments Raise {A} e.
Arguments Unfinished {A}.

Definition bind_result {A B} (r : result A) (k : A -> result B) : result B :=
  match r with
  | Ok a => k a
  | Raise e => Raise e
  | Unfinished => Unfinished
  end.

Declare Scope result_scope.
Delimit Scope result_scope with result.
Notation "x <~ r ;; k" := (bind_result r (fun x => k))
  (at level 61, r at next level, right associativity) : result_scope.

(** [xs[i]]. *)
Definition index {A} (xs : list A) (i : nat) : result A :=
  match nth_error xs i with
  | Some x => Ok x
  | None => Raise IndexError
  end.

(* ================================================================== *)
(** * The line decoder *)
(* ================================================================== *)

(** The payload of a sample: one number, or the three of the accelerometer. *)
Inductive payload (Float : Type) : Type :=
| Scalar (v : Float)
| Vec3 (x y z : Float).

Arguments Scalar {Float} v.
Arguments Vec3 {Float} x y z.

(** The tuple [(stream, timestamp, data)] that [_parse_packet] returns. *)
Definition sample (Float : Type) : Type := (string * Float * payload Float)%type.

Definition DISCONNECT_MESSAGE : string := "connection lost to device".

(** [_split_response]: [response.split("\n")]. *)
Definition _split_response (response : string) : list string :=
  split_on LF response.

(** The second guard of [_is_data_packet], [packet[0] == 'R'], on a packet
    that passed the first one: the packet is an acknowledgement line. *)
Definition is_ack_packet (packet : string) : bool :=
  match packet with
  | EmptyString => false
  | String c _ => Ascii.eqb c "R"
  end.

(** [_is_data_packet]. *)
Definition _is_data_packet (packet : string) : bool :=
  if String.eqb packet "" then false
  else if is_ack_packet packet then false
  else true.

Section Decoder.

Variable Float : Type.

(** The builtin [float]: [None] stands for its [ValueError]. *)
Variable float : string -> option Float.

Definition py_float (s : string) : result Float :=
  match float s with
  | Some v => Ok v
  | None => Raise ValueError
  end.

(** [float(token.replace(',', '.'))]. *)
Definition number (token : string) : result Float :=
  py_float (replace "," "." token).

(** [float(tokens[i].replace(',', '.'))]: the index is evaluated first. *)
Definition number_at (tokens : list string) (i : nat) : result Float :=
  (token <~ index tokens i ;; number token)%result.

(** [_parse_packet]. *)
Definition _parse_packet (packet : string) : result (sample Float) :=
  (let tokens := split_ws packet in
   stream <~ index tokens 0 ;;
   timestamp <~ number_at tokens 1 ;;
   data <~ (if String.eqb stream "E4_Acc" then
              x <~ number_at tokens 2 ;;
              y <~ number_at tokens 3 ;;
              z <~ number_at tokens 4 ;;
              Ok (Vec3 x y z)
            else
              v <~ number_at tokens 2 ;;
              Ok (Scalar v)) ;;
   Ok (stream, timestamp, data))%result.

(** The comprehension of [get_data]:
    [[self._parse_packet(p) for p in packets if self._is_data_packet(p)]]. *)
Fixpoint parse_data_packets (packets : list string)
  : result (list (sample Float)) :=
  match packets with
  | [] => Ok []
  | p :: ps =>
      if _is_data_packet p then
        (s <~ _parse_packet p ;;
         ss <~ parse_data_packets ps ;;
         Ok (s :: ss))%result
      else parse_data_packets ps
  end.

End Decoder.

Arguments py_float {Float} float s.
Arguments number {Float} float token.
Arguments number_at {Float} float tokens i.
Arguments _parse_packet {Float} float packet.
Arguments parse_data_packets {Float} float packets.

(** The packets of [get_data] that reach [_parse_packet]. *)
Definition data_lines (response : string) : list string :=
  filter _is_data_packet (_split_response response).

(** The lines obtained when the chunks are received one call after the
    other: each call splits the text of its own [recv]. *)
Definition lines_fed (chunks : list string) : list string :=
  flat_map _split_response chunks.

(** The packets that reach [_parse_packet] over successive calls. *)
Definition data_lines_fed (chunks : list string) : list string :=
  flat_map data_lines chunks.

(* ================================================================== *)
(** * The message tables *)
(* ================================================================== *)

(** The tables of [messages.py]: the classes [_Send] and [_Receive], which
    the class [Messages] holds as [SEND] and [RECV]. *)
Module msg.

Module SEND.
Definition PAUSE : string := "pause ON" ++ crlf.
Definition RESUME : string := "pause OFF" ++ crlf.
Definition DISCONNECT : string := "device_disconnect" ++ crlf.
Definition LIST : string := "device_list" ++ crlf.
Definition CONNECT_L (device_id : string) : string :=
  "device_connect " ++ device_id ++ crlf.
Definition SUBSCRIBE_L (subscription : string) : string :=
  "device_subscribe " ++ subscription ++ " ON" ++ crlf.
End SEND.

Module RECV.
Definition SUB_OK_L (subscription : string) : string :=
  "R device_subscribe " ++ subscription ++ " OK" ++ lf.
Definition DEV_OK : string := "R device_connect OK" ++ lf.
Definition PAUSE_ON_ACK : string := "R pause ON" ++ lf.
Definition PAUSE_OFF_ACK : string := "R pause OFF" ++ lf.
Definition DISCONNECT_MESSAGE : string := "connection lost to device" ++ lf.
End RECV.

End msg.

(** The constants at the head of [client.py]. *)
Definition COMMAND_PAUSE : string := "pause ON" ++ crlf.
Definition COMMAND_RESUME : string := "pause OFF" ++ crlf.
Definition COMMAND_DISCONNECT : string := "device_disconnect" ++ crlf.
Definition COMMAND_LIST : string := "device_list" ++ crlf.
Definition COMMAND_DEV_CONNECT (device_id : string) : string :=
  "device_connect " ++ device_id ++ crlf.
Definition COMMAND_SUBSCRIBE (subscription : string) : string :=
  "device_subscribe " ++ subscription ++ " ON" ++ crlf.
Definition SUB_ACK_OK (subscription : string) : string :=
  "R device_subscribe " ++ subscription ++ " OK" ++ lf.
Definition DEV_ACK_OK : string := "R device_connect OK" ++ lf.
Definition PAUSE_ON_ACK : string := "R pause ON" ++ lf.
Definition PAUSE_OFF_ACK : string := "R pause OFF" ++ lf.

(* ================================================================== *)
(** * The client and the world around it *)
(* ================================================================== *)

(** The attributes [__init__] stores; [verbose] decides whether
    [self.logger] is a logger or [None]. *)
Record E4Client : Type := {
  device_id : string;
  subscriptions : list string;
  ip : string;
  port : Z;
  buffer_size : Z;
  timeout : Z;
  verbose : bool
}.

Inductive level : Type := INFO | ERROR.

(** The calls the client makes on its collaborators, in the order made.
    [logging.exception] logs at the level [ERROR]. *)
Inductive event : Type :=
| SocketNew                                  (* socket.socket(...) *)
| SetTimeout (seconds : Z)                   (* s.settimeout *)
| SockConnect (host : string) (port : Z)     (* s.connect *)
| Send (data : string)                       (* s.send *)
| Recv (bufsize : Z)                         (* s.recv, answered *)
| RecvTimedOut (bufsize : Z)                 (* s.recv, timed out *)
| Shutdown                                   (* s.shutdown(SHUT_RDWR) *)
| Close                                      (* s.close *)
| Log (lvl : level) (message : string).      (* logging.* and self.logger.* *)

(** What one [recv] brings: a text, or nothing before the timeout. *)
Inductive delivery : Type :=
| Chunk (text : string)
| Silence.

(** The state threaded through the calls: the calls made so far, the
    deliveries still to come (when none is left, a [recv] times out), and the
    attribute [self.running], unset until [run] or [pause] assigns it. *)
Record world : Type := {
  trace : list event;
  inbox : list delivery;
  running : option bool
}.

Definition M (A : Type) : Type := world -> result A * world.

Definition ret {A} (a : A) : M A := fun w => (Ok a, w).

Definition bind {A B} (m : M A) (k : A -> M B) : M B :=
  fun w =>
    match m w with
    | (Ok a, w') => k a w'
    | (Raise e, w') => (Raise e, w')
    | (Unfinished, w') => (Unfinished, w')
    end.

Declare Scope io_scope.
Delimit Scope io_scope with io.
Notation "x <- m ;; k" := (bind m (fun x => k))
  (at level 61, m at next level, right associativity) : io_scope.
Notation "m ;; k" := (bind m (fun _ => k))
  (at level 61, right associativity) : io_scope.

(** A value or an exception computed without the world. *)
Definition lift {A} (r : result A) : M A := fun w => (r, w).

Definition emit (e : event) : M unit :=
  fun w => (Ok tt, {| trace := trace w ++ [e];
                      inbox := inbox w;
                      running := running w |}).

Definition log (lvl : level) (message : string) : M unit :=
  emit (Log lvl message).

(** [if self.logger: self.logger.info(message)]. *)
Definition logger_info (self : E4Client) (message : string) : M unit :=
  if verbose self then log INFO message else ret tt.

(** [self.s.recv(bufsize)] followed by its decoding. *)
Definition recv (bufsize : Z) : M string :=
  fun w =>
    match inbox w with
    | Chunk text :: rest =>
        (Ok text, {| trace := trace w ++ [Recv bufsize];
                     inbox := rest;
                     running := running w |})
    | Silence :: rest =>
        (Raise SocketTimeout, {| trace := trace w ++ [RecvTimedOut bufsize];
                                 inbox := rest;
                                 running := running w |})
    | [] =>
        (Raise SocketTimeout, {| trace := trace w ++ [RecvTimedOut bufsize];
                                 inbox := [];
                                 running := running w |})
    end.

Definition set_running (b : bool) : M unit :=
  fun w => (Ok tt, {| trace := trace w;
                      inbox := inbox w;
                      running := Some b |}).

(** [try: body except socket.timeout: handler]. *)
Definition except_timeout {A} (body handler : M A) : M A :=
  fun w =>
    match body w with
    | (Raise SocketTimeout, w') => handler w'
    | other => other
    end.

(** [for x in xs: body(x)]. *)
Fixpoint for_each {A} (xs : list A) (body : A -> M unit) : M unit :=
  match xs with
  | [] => ret tt
  | x :: xs' => (body x ;; for_each xs' body)%io
  end.

(** [if cond: then_]. *)
Definition when (cond : bool) (then_ : M unit) : M unit :=
  if cond then then_ else ret tt.

(** The names bound in the module [messages], which [client.py] imports as
    [msg]: the import of [Enum] and the three classes. *)
Definition messages_names : list string :=
  ["Enum"; "_Send"; "_Receive"; "Messages"].

(** [msg.name]: the lookup of a name in the module. *)
Definition msg_attribute (name : string) : M unit :=
  if existsb (String.eqb name) messages_names then ret tt
  else lift (Raise AttributeError).

(** The names of a member of an [Enum] class. *)
Definition enum_member_names : list string := ["name"; "value"].

(** [member.name] on a member of an [Enum] class. *)
Definition enum_member_attribute (name : string) : M unit :=
  if existsb (String.eqb name) enum_member_names then ret tt
  else lift (Raise AttributeError).

(** The commands sent so far. *)
Definition sent (w : world) : list string :=
  flat_map (fun e => match e with Send data => [data] | _ => [] end) (trace w).

(** The messages logged so far at a level. *)
Definition logged (lvl : level) (w : world) : list string :=
  flat_map (fun e => match e, lvl with
                     | Log INFO m, INFO => [m]
                     | Log ERROR m, ERROR => [m]
                     | _, _ => []
                     end) (trace w).

Section Client.

Variable Float : Type.
Variable float : string -> option Float.
Variable self : E4Client.

Open Scope io_scope.

(** [_pause_stream]. *)
Definition _pause_stream : M unit :=
  log INFO "Pausing data stream..." ;;
  emit (Send COMMAND_PAUSE) ;;
  response <- recv (buffer_size self) ;;
  when (negb (String.eqb response PAUSE_ON_ACK))
       (log ERROR "Could not pause stream.") ;;
  log INFO "Stream paused.".

(** [_resume_stream]. *)
Definition _resume_stream : M unit :=
  log INFO "Resuming data stream..." ;;
  emit (Send COMMAND_RESUME) ;;
  response <- recv (buffer_size self) ;;
  ret tt.

(** [_connect_device]. *)
Definition _connect_device : M unit :=
  log INFO "Querying for available devices." ;;
  emit (Send COMMAND_LIST) ;;
  response <- recv (buffer_size self) ;;
  when (negb (contains (device_id self) response))
       (log ERROR ("Device ID " ++ device_id self
                   ++ " not in available devices.")) ;;
  log INFO "Connecting to device" ;;
  emit (Send (COMMAND_DEV_CONNECT (device_id self))) ;;
  response <- recv (buffer_size self) ;;
  when (negb (String.eqb response DEV_ACK_OK))
       (log ERROR ("Could not subscribe to device " ++ device_id self)) ;;
  log INFO "Device connected.".

(** [subscribe].  The argument of [send] is evaluated before the call:
    [msg.SEND] is looked up first. *)
Definition subscribe (subscription : string) : M unit :=
  log INFO ("Suscribing to " ++ subscription ++ "...") ;;
  msg_attribute "SEND" ;;
  emit (Send (msg.SEND.SUBSCRIBE_L subscription)) ;;
  response <- recv (buffer_size self) ;;
  msg_attribute "RECV" ;;
  when (negb (String.eqb response (msg.RECV.SUB_OK_L subscription)))
       (log ERROR ("Could not subscripe to type " ++ subscription)) ;;
  log INFO "Subscribed successfully.".

(** [connect]. *)
Definition connect : M unit :=
  logger_info self "Connecting to server..." ;;
  emit (SockConnect (ip self) (port self)) ;;
  _connect_device ;;
  logger_info self "Connected." ;;
  _pause_stream ;;
  for_each (subscriptions self) subscribe.

(** The part of [reset] before its call of [connect]: the socket is shut
    down and closed, and a new one is made with the same timeout. *)
Definition reset_socket : M unit :=
  logger_info self "Resetting socket" ;;
  emit Shutdown ;;
  emit Close ;;
  emit SocketNew ;;
  emit (SetTimeout (timeout self)).

(** [reset]. *)
Definition reset : M unit :=
  reset_socket ;;
  connect.

(** [reconnect]. *)
Definition reconnect : M unit :=
  reset ;;
  connect.

(** [run]. *)
Definition run : M unit :=
  _resume_stream ;;
  set_running true.

(** [pause]. *)
Definition pause : M unit :=
  _pause_stream ;;
  set_running false.

(** [disconnect].  The argument of [send] is [msg.SEND.DISCONNECT.encode()]:
    the lookup of [SEND] in [msg], then that of [encode] on the member
    [DISCONNECT] of the [Enum] class. *)
Definition disconnect : M unit :=
  log INFO "Disconnecting..." ;;
  msg_attribute "SEND" ;;
  enum_member_attribute "encode" ;;
  emit (Send msg.SEND.DISCONNECT) ;;
  emit Shutdown ;;
  emit Close ;;
  log INFO "Disconnected.".

(** [_receive]. *)
Definition _receive : M string :=
  recv (buffer_size self).

(** [_scan_for_tag]: the value returned, [None] included. *)
Fixpoint _scan_for_tag (packets : list string) : M (option Float) :=
  match packets with
  | [] => ret None
  | packet :: packets' =>
      if contains "E4_Tag" packet then
        log INFO "Found tag." ;;
        token <- lift (index (split_ws packet) 1) ;;
        stamp <- lift (number float token) ;;
        ret (Some stamp)
      else _scan_for_tag packets'
  end.

(** One turn of the loop of [poll_for_tag]: [Some t] when the turn ends
    in [return t], [None] when the loop goes on. *)
Definition poll_turn : M (option Float) :=
  except_timeout
    (response <- _receive ;;
     let packets := _split_response response in
     _scan_for_tag packets)
    (log INFO "Timed out waiting for tag. Resuming polling..." ;;
     ret None).

(** The loop [while True] of [poll_for_tag], with a budget of turns. *)
Fixpoint poll_loop (turns : nat) : M Float :=
  match turns with
  | O => lift Unfinished
  | S turns' =>
      tag_timestamp <- poll_turn ;;
      match tag_timestamp with
      | Some t => ret t
      | None => poll_loop turns'
      end
  end.

(** [poll_for_tag]. *)
Definition poll_for_tag (turns : nat) : M Float :=
  log INFO "Polling for tag..." ;;
  poll_loop turns.

(** [get_data]. *)
Definition get_data : M (list (sample Float)) :=
  response <- recv (buffer_size self) ;;
  when (contains DISCONNECT_MESSAGE response)
       (log ERROR ("Lost connection to device " ++ device_id self ++ ".")) ;;
  let packets := _split_response response in
  data_packets <- lift (parse_data_packets float packets) ;;
  ret data_packets.

End Client.

Arguments _scan_for_tag {Float} float packets.
Arguments poll_turn {Float} float self.
Arguments poll_loop {Float} float self turns.
Arguments poll_for_tag {Float} float self turns.
Arguments get_data {Float} float self.

(* ================================================================== *)
(** * A reading of decimal literals, to run the model on examples *)
(* ================================================================== *)

(** The development is parametric in [float].  To evaluate it on concrete
    lines, [Decimal.float] reads the plain decimal literals (an optional
    sign, digits, at most one point, one digit at least) and gives their exact
    value as a reduced fraction; it rejects every other text.  On those
    literals the builtin gives the same value rounded to a double, and the
    texts without any digit that the examples use are rejected by both. *)
Module Decimal.

Definition digit (c : ascii) : option Z :=
  let n := nat_of_ascii c in
  if ((48 <=? n) && (n <=? 57))%nat then Some (Z.of_nat (n - 48)) else None.

(** Reads the digits: [mantissa] is the number read so far without its
    point, [places] counts the digits after the point once it is met. *)
Fixpoint digits (s : string) (mantissa : Z) (places : option nat)
         (any : bool) : option (Z * nat) :=
  match s with
  | EmptyString =>
      if any then Some (mantissa, match places with
                                  | Some k => k
                                  | None => O
                                  end)
      else None
  | String c s' =>
      if Ascii.eqb c "." then
        match places with
        | None => digits s' mantissa (Some O) any
        | Some _ => None
        end
      else
        match digit c with
        | Some d => digits s' (10 * mantissa + d)%Z (option_map S places) true
        | None => None
        end
  end.

Definition float (s : string) : option Q :=
  let '(negative, body) :=
    match s with
    | String "-" rest => (true, rest)
    | String "+" rest => (false, rest)
    | _ => (false, s)
    end in
  match digits body 0%Z None false with
  | Some (m, k) =>
      Some (Qred (Qmake (if negative then - m else m)%Z
                        (Z.to_pos (10 ^ Z.of_nat k))))
  | None => None
  end.

End Decimal.

(* ================================================================== *)
(** * The specification's wording, for comparison *)
(* ================================================================== *)

(** The scan as the specification words it: the first packet whose stream
    code, its first token, is the tag code gives the timestamp. *)
Fixpoint spec_scan_by_stream_code {Float : Type}
         (float : string -> option Float) (packets : list string)
  : result (option Float) :=
  match packets with
  | [] => Ok None
  | packet :: packets' =>
      match split_ws packet with
      | stream :: _ =>
          if String.eqb stream "E4_Tag" then
            (stamp <~ number_at float (split_ws packet) 1 ;;
             Ok (Some stamp))%result
          else spec_scan_by_stream_code float packets'
      | [] => spec_scan_by_stream_code float packets'
      end
  end.

(** Runs a call and forgets whether it raised. *)
Definition ignoring_errors (m : M unit) : M unit :=
  fun w => (Ok tt, snd (m w)).

(** [reconnect] as the specification words it: [disconnect] with its errors
    ignored, then one [connect]. *)
Definition spec_reconnect (self : E4Client) : M unit :=
  (ignoring_errors (disconnect) ;; connect self)%io.

(** A client for the examples. *)
Definition example_client : E4Client :=
  {| device_id := "A01234";
     subscriptions := ["acc"; "tag"];
     ip := "127.0.0.1";
     port := 28000;
     buffer_size := 4096;
     timeout := 3;
     verbose := false |}.

(** The same client with nothing to subscribe to. *)
Definition bare_client : E4Client :=
  {| device_id := "A01234";
     subscriptions := [];
     ip := "127.0.0.1";
     port := 28000;
     buffer_size := 4096;
     timeout := 3;
     verbose := false |}.

(** A world in which nothing has happened yet and [deliveries] will come. *)
Definition fresh_world (deliveries : list delivery) : world :=
  {| trace := []; inbox := deliveries; running := None |}.

(** The buffer that the chunks make up, end to end. *)
Definition buffer_of (chunks : list string) : string :=
  fold_right append EmptyString chunks.

(** A line with some text on it. *)
Definition nonempty (line : string) : bool := negb (String.eqb line "").

(** Every delivery of [quiet] is a timeout or a text no line of which
    contains [needle]. *)
Definition without (needle : string) (d : delivery) : Prop :=
  match d with
  | Silence => True
  | Chunk text =>
      forall line, In line (_split_response text) -> contains needle line = false
  end.

(** The same, decided. *)
Definition withoutb (needle : string) (d : delivery) : bool :=
  match d with
  | Silence => true
  | Chunk text =>
      forallb (fun line => negb (contains needle line)) (_split_response text)
  end.

(** A token as [split()] yields them: some text, no white space in it. *)
Definition is_token (t : string) : bool := nonempty t && no_space t.

(** The normal form of a numeric token: [token.replace(',', '.')]. *)
Definition periods (token : string) : string := replace "," "." token.

(** The call failed to decode its line: it raised the [IndexError] of a
    missing token or the [ValueError] of a token that is no number. *)
Definition decode_fails {A} (r : result A) : Prop :=
  r = Raise IndexError \/ r = Raise ValueError.

(** The world [w] after the further calls [events]. *)
Definition after (w : world) (events : list event) : world :=
  {| trace := trace w ++ events; inbox := inbox w; running := running w |}.

(** The world [w] after its next delivery was taken by a [recv] recorded
    as [event], [rest] being the deliveries left. *)
Definition received (w : world) (event : event) (rest : list delivery) : world :=
  {| trace := trace w ++ [event]; inbox := rest; running := running w |}.

(** A call only adds to the trace. *)
Definition extends {A} (m : M A) : Prop :=
  forall w, exists events, trace (snd (m w)) = (trace w ++ events)%list.

(* ================================================================== *)
(** * Readings of a run, for the statements on whole handshakes *)
(* ================================================================== *)

(** The commands of [connect], in the order sent: those of
    [_connect_device] and that of [_pause_stream]. *)
Definition handshake_commands (self : E4Client) : list string :=
  [COMMAND_LIST; COMMAND_DEV_CONNECT (device_id self); COMMAND_PAUSE].

(** The messages [connect] logs with [logging.exception], on the list of
    devices and on the two acknowledgements received in turn. *)
Definition connect_errors (self : E4Client) (listing devack pauseack : string)
  : list string :=
  ((if contains (device_id self) listing then []
    else [("Device ID " ++ device_id self
            ++ " not in available devices.")%string])
   ++ (if String.eqb devack DEV_ACK_OK then []
       else [("Could not subscribe to device " ++ device_id self)%string])
   ++ (if String.eqb pauseack PAUSE_ON_ACK then []
       else ["Could not pause stream."]))%list.

(** How the loop over the subscriptions ends: at once when there is none,
    with the [AttributeError] of the first [subscribe] otherwise. *)
Definition subscriptions_outcome (self : E4Client) : result unit :=
  match subscriptions self with
  | [] => Ok tt
  | _ :: _ => Raise AttributeError
  end.

(** The call [m] made in the world [w] ends in [outcome], having sent
    [commands], logged [errors] at the level [ERROR], left [rest] to be
    received and not touched [self.running]. *)
Definition ends (outcome : result unit) (m : M unit) (w : world)
           (commands errors : list string) (rest : list delivery) : Prop :=
  fst (m w) = outcome
  /\ sent (snd (m w)) = (sent w ++ commands)%list
  /\ logged ERROR (snd (m w)) = (logged ERROR w ++ errors)%list
  /\ inbox (snd (m w)) = rest
  /\ running (snd (m w)) = running w.

(** The call [m] made in the world [w] returns, having sent [commands],
    logged [errors] at the level [ERROR], left [rest] to be received and not
    touched [self.running]. *)
Definition performs (m : M unit) (w : world) (commands errors : list string)
           (rest : list delivery) : Prop :=
  fst (m w) = Ok tt
  /\ sent (snd (m w)) = (sent w ++ commands)%list
  /\ logged ERROR (snd (m w)) = (logged ERROR w ++ errors)%list
  /\ inbox (snd (m w)) = rest
  /\ running (snd (m w)) = running w.

(** Every character of [s] is white space. *)
Fixpoint only_space (s : string) : bool :=
  match s with
  | EmptyString => true
  | String c s' => is_space c && only_space s'
  end.

(** No character of [s] is a line feed. *)
Fixpoint no_lf (s : string) : bool :=
  match s with
  | EmptyString => true
  | String c s' => negb (Ascii.eqb c LF) && no_lf s'
  end.

(** [packet.split()[0]], when there is one. *)
Definition stream_code (packet : string) : option string :=
  hd_error (split_ws packet).

(* ================================================================== *)
(** * Facts on the string operations *)
(* ================================================================== *)

Module PyStrFacts.

Lemma append_empty_r (s : string) : s ++ "" = s.
Proof. induction s as [|c s IH]; simpl; [reflexivity | now rewrite IH]. Qed.

Lemma append_assoc (a b c : string) : (a ++ b) ++ c = a ++ (b ++ c).
Proof. induction a as [|x a IH]; simpl; [reflexivity | now rewrite IH]. Qed.

Lemma starts_with_spec (p s : string) :
  starts_with p s = true <-> exists rest, s = p ++ rest.
Proof.
  revert s; induction p as [|a p IH]; intros s; simpl.
  - split; [intros _; now exists s | reflexivity].
  - destruct s as [|b s].
    + split; [discriminate | intros [rest H]; discriminate].
    + rewrite andb_true_iff, Ascii.eqb_eq, IH. split.
      * intros [-> [rest ->]]. now exists rest.
      * intros [rest H]. injection H as -> ->. split; [reflexivity | now exists rest].
Qed.

(** [contains] is substring containment. *)
Lemma contains_spec (needle hay : string) :
  contains needle hay = true <->
  exists before after, hay = before ++ needle ++ after.
Proof.
  induction hay as [|c hay IH].
  - simpl. rewrite orb_false_r, starts_with_spec. split.
    + intros [rest H]. exists "", rest. exact H.
    + intros [before [after H]]. destruct before as [|b before]; simpl in H.
      * now exists after.
      * discriminate.
  - cbn [contains]. rewrite orb_true_iff, starts_with_spec, IH. split.
    + intros [[rest H] | [before [after H]]].
      * exists "", rest. exact H.
      * exists (String c before), after. simpl. now rewrite H.
    + intros [before [after H]]. destruct before as [|b before]; simpl in H.
      * left. now exists after.
      * right. injection H as _ H. now exists before, after.
Qed.

Lemma split_on_not_nil (sep : ascii) (s : string) : split_on sep s <> [].
Proof.
  destruct s as [|c s]; simpl; [discriminate |].
  destruct (Ascii.eqb c sep); [discriminate |].
  destruct (split_on sep s); discriminate.
Qed.

(** Splitting at a separator splits the list of fields. *)
Lemma split_on_app_sep (sep : ascii) (a b : string) :
  split_on sep (a ++ String sep b) = (split_on sep a ++ split_on sep b)%list.
Proof.
  induction a as [|c a IH]; simpl.
  - now rewrite Ascii.eqb_refl.
  - destruct (Ascii.eqb c sep).
    + now rewrite IH.
    + rewrite IH. pose proof (split_on_not_nil sep a) as Hne.
      destruct (split_on sep a) as [|f fs]; [contradiction | reflexivity].
Qed.

Lemma split_on_sep_end (sep : ascii) (a : string) :
  split_on sep (a ++ String sep "") = (split_on sep a ++ [""])%list.
Proof. now rewrite split_on_app_sep. Qed.

(** The general law: the last field of the first part and the first field
    of the second part are one field of the whole. *)
Lemma split_on_app (sep : ascii) (a b : string) :
  split_on sep (a ++ b) =
  (removelast (split_on sep a)
   ++ (last (split_on sep a) "" ++ hd "" (split_on sep b))%string
   :: tl (split_on sep b))%list.
Proof.
  induction a as [|c a IH].
  - simpl. pose proof (split_on_not_nil sep b) as Hne.
    destruct (split_on sep b); [contradiction | reflexivity].
  - cbn [append split_on]. destruct (Ascii.eqb c sep).
    + rewrite IH. pose proof (split_on_not_nil sep a) as Hne.
      destruct (split_on sep a) as [|f fs]; [contradiction | reflexivity].
    + rewrite IH. pose proof (split_on_not_nil sep a) as Hne.
      destruct (split_on sep a) as [|f fs]; [contradiction |].
      destruct fs as [|g gs]; reflexivity.
Qed.

Lemma ends_with_char_spec (c : ascii) (s : string) :
  ends_with_char c s = true <-> exists a, s = a ++ String c "".
Proof.
  induction s as [|x s IH].
  - simpl. split; [discriminate | intros [[|y a] H]; discriminate].
  - destruct s as [|y s].
    + simpl. rewrite Ascii.eqb_eq. split.
      * intros ->. now exists "".
      * intros [[|z a] H]; simpl in H.
        -- now injection H.
        -- injection H as _ H. destruct a; discriminate.
    + change (ends_with_char c (String x (String y s)))
        with (ends_with_char c (String y s)).
      rewrite IH. split.
      * intros [a ->]. now exists (String x a).
      * intros [[|z a] H]; simpl in H; [discriminate |].
        injection H as _ H. now exists a.
Qed.

End PyStrFacts.

Import PyStrFacts.

(* ================================================================== *)
(** * Facts on the tokens of a line *)
(* ================================================================== *)

Module TokenFacts.


(** One step of [split_ws] at a character that is no space. *)
Lemma split_ws_step (c : ascii) (s : string) :
  is_space c = false ->
  split_ws (String c s) =
  match s with
  | EmptyString => [String c EmptyString]
  | String c' _ =>
      if is_space c' then String c EmptyString :: split_ws s
      else match split_ws s with
           | tok :: toks => String c tok :: toks
           | [] => [String c EmptyString]
           end
  end.
Proof. intros H. destruct s; simpl; now rewrite H. Qed.




End TokenFacts.

Import TokenFacts.

(* ================================================================== *)
(** * The line splitter and the classification of lines *)
(* ================================================================== *)

Lemma is_data_packet_spec (packet : string) :
  _is_data_packet packet = nonempty packet && negb (is_ack_packet packet).
Proof. destruct packet as [|c s]; [reflexivity |]. simpl.
       unfold _is_data_packet, nonempty. simpl. now destruct (Ascii.eqb c "R"). Qed.

(** A filter that drops the empty line sees the same lines whether a text
    that ends a line is split with what follows or on its own. *)
Lemma filter_split_line_end (keep : string -> bool) (chunk rest : string) :
  keep "" = false ->
  ends_with_char LF chunk = true ->
  filter keep (_split_response (chunk ++ rest)) =
  (filter keep (_split_response chunk) ++ filter keep (_split_response rest))%list.
Proof.
  intros Hkeep Hend. apply ends_with_char_spec in Hend as [a ->].
  unfold _split_response.
  rewrite append_assoc. cbn [append].
  rewrite split_on_app_sep, split_on_sep_end.
  rewrite !filter_app. cbn [filter]. rewrite Hkeep.
  now rewrite app_nil_r.
Qed.

Lemma filter_lines_fed (keep : string -> bool) (chunks : list string)
      (final : string) :
  keep "" = false ->
  Forall (fun chunk => ends_with_char LF chunk = true) chunks ->
  filter keep (lines_fed (chunks ++ [final])) =
  filter keep (_split_response (buffer_of (chunks ++ [final]))).
Proof.
  intros Hkeep Hall. induction Hall as [|chunk chunks Hend _ IH].
  - simpl. now rewrite app_nil_r, append_empty_r.
  - cbn [app lines_fed flat_map buffer_of fold_right].
    rewrite filter_app.
    rewrite filter_split_line_end by assumption.
    f_equal. exact IH.
Qed.

Lemma data_lines_fed_filter (chunks : list string) :
  data_lines_fed chunks = filter _is_data_packet (lines_fed chunks).
Proof.
  induction chunks as [|c cs IH]; [reflexivity |].
  unfold data_lines_fed, lines_fed in *. cbn [flat_map].
  rewrite filter_app. now rewrite IH.
Qed.

(** C1, as the code has it.  The splitter keeps nothing between two calls:
    each chunk is split on its own.  When every chunk but the last ends with
    a line feed, feeding the chunks one at a time gives the same non-empty
    lines, and so the same data lines, as feeding the whole buffer at once. *)
Theorem chunks_ending_lines_split_alike (chunks : list string) (final : string)
        (Hends : Forall (fun chunk => ends_with_char LF chunk = true) chunks) :
  filter nonempty (lines_fed (chunks ++ [final])) =
    filter nonempty (_split_response (buffer_of (chunks ++ [final])))
  /\ data_lines_fed (chunks ++ [final]) = data_lines (buffer_of (chunks ++ [final]))
  /\ (forall chunk later,
        lines_fed (chunk :: later) = (_split_response chunk ++ lines_fed later)%list).
Proof.
  split; [|split].
  - now apply filter_lines_fed.
  - rewrite data_lines_fed_filter. unfold data_lines.
    now apply filter_lines_fed.
  - reflexivity.
Qed.

Lemma chunks_ending_lines_split_alike_witness :
  data_lines_fed (["E4_Gsr 1,0 0,5" ++ lf; "E4_Bvp 2,0 1,5" ++ lf] ++ ["E4_T"])
  = ["E4_Gsr 1,0 0,5"; "E4_Bvp 2,0 1,5"; "E4_T"].
Proof.
  rewrite (proj1 (proj2 (chunks_ending_lines_split_alike
                           ["E4_Gsr 1,0 0,5" ++ lf; "E4_Bvp 2,0 1,5" ++ lf]
                           "E4_T"
                           ltac:(repeat constructor)))).
  reflexivity.
Defined.

(** C1, as the claim states it, fails: a line cut by a chunk boundary comes
    out as two lines, nothing of the first chunk being kept for the second. *)
Lemma chunk_boundary_cuts_a_line :
  lines_fed ["E4_Gsr 1,0"; " 0,5" ++ lf] = ["E4_Gsr 1,0"; " 0,5"; ""]
  /\ lines_fed [buffer_of ["E4_Gsr 1,0"; " 0,5" ++ lf]] = ["E4_Gsr 1,0 0,5"; ""]
  /\ lines_fed ["E4_Gsr 1,0"; " 0,5" ++ lf]
     <> lines_fed [buffer_of ["E4_Gsr 1,0"; " 0,5" ++ lf]]
  /\ data_lines_fed ["E4_Gsr 1,0"; " 0,5" ++ lf]
     <> data_lines_fed [buffer_of ["E4_Gsr 1,0"; " 0,5" ++ lf]].
Proof. repeat split; try reflexivity; discriminate. Qed.

(** Whatever the text received, [get_data] returns what the comprehension
    gives on its lines. *)
Lemma get_data_result (Float : Type) (float : string -> option Float)
      (self : E4Client) (response : string) (rest : list delivery) (w : world) :
  inbox w = Chunk response :: rest ->
  fst (get_data float self w) =
  parse_data_packets float (_split_response response).
Proof.
  intros Hinbox. destruct w as [tr inb run]. cbn [inbox] in Hinbox. subst inb.
  unfold get_data, bind, recv, when, log, emit, lift, ret.
  cbn [inbox trace running].
  destruct (contains DISCONNECT_MESSAGE response);
    destruct (parse_data_packets float (_split_response response));
    reflexivity.
Qed.

(** C7.  A line is classed as an acknowledgement exactly when its first
    character is [R]; such a line is no data packet, so [get_data] never hands
    it to [_parse_packet] and its result is the same with these lines taken
    out; the empty line is neither an acknowledgement nor data, and is
    dropped in the same way. *)
Theorem ack_lines_are_never_decoded :
  (forall packet,
      is_ack_packet packet = true <-> exists rest, packet = String "R" rest)
  /\ (forall packet, is_ack_packet packet = true -> _is_data_packet packet = false)
  /\ (is_ack_packet "" = false /\ _is_data_packet "" = false)
  /\ (forall response packet,
        In packet (data_lines response) ->
        is_ack_packet packet = false /\ packet <> "")
  /\ (forall Float (float : string -> option Float) packets,
        parse_data_packets float packets =
        parse_data_packets float
          (filter (fun p => negb (is_ack_packet p) && nonempty p) packets))
  /\ (forall Float (float : string -> option Float) self response rest w,
        inbox w = Chunk response :: rest ->
        fst (get_data float self w) =
        parse_data_packets float
          (filter (fun p => negb (is_ack_packet p) && nonempty p)
                  (_split_response response))).
Proof.
  assert (Hdrop : forall Float (float : string -> option Float) packets,
             parse_data_packets float packets =
             parse_data_packets float
               (filter (fun p => negb (is_ack_packet p) && nonempty p) packets)).
  { intros Float float packets. induction packets as [|p ps IH]; [reflexivity |].
    cbn [filter parse_data_packets]. rewrite is_data_packet_spec.
    rewrite (andb_comm (nonempty p)).
    destruct (negb (is_ack_packet p) && nonempty p) eqn:E.
    - cbn [parse_data_packets]. rewrite is_data_packet_spec.
      rewrite (andb_comm (nonempty p)), E. now rewrite IH.
    - exact IH. }
  split; [|split; [|split; [|split; [|split]]]].
  - intros [|c s]; simpl.
    + split; [discriminate | intros [rest H]; discriminate].
    + rewrite Ascii.eqb_eq. split.
      * intros ->. now exists s.
      * intros [rest H]. now injection H.
  - intros packet H. rewrite is_data_packet_spec, H. apply andb_false_r.
  - split; reflexivity.
  - intros response packet Hin. unfold data_lines in Hin.
    apply filter_In in Hin as [_ H]. rewrite is_data_packet_spec in H.
    apply andb_true_iff in H as [H1 H2]. split.
    + now apply negb_true_iff.
    + intros ->. discriminate.
  - exact Hdrop.
  - intros Float float self response rest w Hinbox.
    rewrite (get_data_result Float float self response rest w Hinbox).
    apply Hdrop.
Qed.

Lemma ack_lines_are_never_decoded_witness :
  is_ack_packet ("R pause ON") = true
  /\ _is_data_packet ("R pause ON") = false
  /\ fst (get_data Decimal.float example_client
            (fresh_world [Chunk ("R pause ON" ++ lf ++ "E4_Gsr 1,5 0,25" ++ lf)]))
     = Ok [("E4_Gsr", Qmake 3 2, Scalar (Qmake 1 4))].
Proof.
  split; [|split].
  - apply (proj1 ack_lines_are_never_decoded "R pause ON"). now exists " pause ON".
  - apply (proj1 (proj2 ack_lines_are_never_decoded) "R pause ON"). reflexivity.
  - rewrite (proj2 (proj2 (proj2 (proj2 (proj2 ack_lines_are_never_decoded))))
               Q Decimal.float example_client
               ("R pause ON" ++ lf ++ "E4_Gsr 1,5 0,25" ++ lf) []
               (fresh_world [Chunk ("R pause ON" ++ lf ++ "E4_Gsr 1,5 0,25" ++ lf)])
               eq_refl).
    reflexivity.
Defined.

(* ================================================================== *)
(** * The decoder of data lines *)
(* ================================================================== *)

Section DecoderFacts.

Variable Float : Type.
Variable float : string -> option Float.

(** Past the stream code, a token is read through its normal form only. *)
Lemma number_at_tail (stream : string) (rest : list string) (i : nat) :
  number_at float (stream :: rest) (S i) =
  match nth_error (map periods rest) i with
  | Some t => py_float float t
  | None => Raise IndexError
  end.
Proof.
  unfold number_at, index, number. cbn [nth_error].
  rewrite nth_error_map. now destruct (nth_error rest i).
Qed.

(** [_parse_packet] on a line whose tokens are known. *)
Lemma parse_packet_tokens (packet stream : string) (rest : list string) :
  split_ws packet = stream :: rest ->
  _parse_packet float packet =
  (timestamp <~ number_at float (stream :: rest) 1 ;;
   data <~ (if String.eqb stream "E4_Acc" then
              x <~ number_at float (stream :: rest) 2 ;;
              y <~ number_at float (stream :: rest) 3 ;;
              z <~ number_at float (stream :: rest) 4 ;;
              Ok (Vec3 x y z)
            else
              v <~ number_at float (stream :: rest) 2 ;;
              Ok (Scalar v)) ;;
   Ok (stream, timestamp, data))%result.
Proof. intros H. unfold _parse_packet. now rewrite H. Qed.


Lemma number_at_short (tokens : list string) (i : nat) :
  (length tokens <= i)%nat ->
  number_at float tokens i = Raise IndexError.
Proof.
  intros H. unfold number_at, index.
  apply nth_error_None in H. now rewrite H.
Qed.

Lemma number_at_fails_or_ok (tokens : list string) (i : nat) :
  decode_fails (number_at float tokens i) \/
  exists v, number_at float tokens i = Ok v.
Proof.
  unfold number_at, index, number, py_float, decode_fails.
  destruct (nth_error tokens i) as [t|]; simpl.
  - destruct (float (replace "," "." t)) as [v|].
    + right. now exists v.
    + left. now right.
  - left. now left.
Qed.

Ltac step_number tokens i :=
  let v := fresh "v" in
  let E := fresh "E" in
  destruct (number_at_fails_or_ok tokens i) as [[E|E]|[v E]];
  rewrite E; cbn [bind_result];
  [ left; reflexivity | right; reflexivity | ].

(** C5.  On a line whose stream code is that of the accelerometer, fewer
    than three payload tokens make [_parse_packet] fail and exactly three
    numeric ones give a payload of three components; for any other stream
    code one payload token is required: without it the call fails, with it
    the payload is one number. *)
Theorem parse_packet_arity (packet stream : string) (rest : list string)
        (Htokens : split_ws packet = stream :: rest) :
  (stream = "E4_Acc" -> (length rest < 4)%nat ->
   decode_fails (_parse_packet float packet))
  /\ (stream = "E4_Acc" ->
      forall ts a b c t x y z,
        rest = [ts; a; b; c] ->
        float (periods ts) = Some t -> float (periods a) = Some x ->
        float (periods b) = Some y -> float (periods c) = Some z ->
        _parse_packet float packet = Ok ("E4_Acc", t, Vec3 x y z))
  /\ (stream <> "E4_Acc" -> (length rest < 2)%nat ->
      decode_fails (_parse_packet float packet))
  /\ (stream <> "E4_Acc" ->
      forall ts a t x,
        rest = [ts; a] ->
        float (periods ts) = Some t -> float (periods a) = Some x ->
        _parse_packet float packet = Ok (stream, t, Scalar x)).
Proof.
  rewrite (parse_packet_tokens _ _ _ Htokens).
  split; [|split; [|split]].
  - intros -> Hlen. cbn [String.eqb Ascii.eqb Bool.eqb].
    step_number ("E4_Acc" :: rest) 1%nat.
    step_number ("E4_Acc" :: rest) 2%nat.
    step_number ("E4_Acc" :: rest) 3%nat.
    rewrite number_at_short by (simpl; lia). now left.
  - intros -> ts a b c t x y z -> Ht Hx Hy Hz.
    unfold number_at, index, number, py_float. cbn [nth_error bind_result].
    fold (periods ts) (periods a) (periods b) (periods c).
    rewrite Ht, Hx, Hy, Hz. reflexivity.
  - intros Hne Hlen. apply String.eqb_neq in Hne. rewrite Hne.
    step_number (stream :: rest) 1%nat.
    rewrite number_at_short by (simpl; lia). now left.
  - intros Hne ts a t x -> Ht Hx. apply String.eqb_neq in Hne. rewrite Hne.
    unfold number_at, index, number, py_float. cbn [nth_error bind_result].
    fold (periods ts) (periods a).
    rewrite Ht, Hx. reflexivity.
Qed.


End DecoderFacts.

(* ================================================================== *)
(** * The calls of the client *)
(* ================================================================== *)

Module MonadFacts.

Lemma bind_ok {A B} (m : M A) (k : A -> M B) (w w' : world) (a : A) :
  m w = (Ok a, w') -> bind m k w = k a w'.
Proof. intros H. unfold bind. now rewrite H. Qed.

Lemma bind_raise {A B} (m : M A) (k : A -> M B) (w w' : world) (e : exn) :
  m w = (Raise e, w') -> bind m k w = (Raise e, w').
Proof. intros H. unfold bind. now rewrite H. Qed.

Lemma bind_assoc {A B C} (m : M A) (k : A -> M B) (k' : B -> M C) (w : world) :
  bind (bind m k) k' w = bind m (fun a => bind (k a) k') w.
Proof. unfold bind. destruct (m w) as [[a|e|] w1]; reflexivity. Qed.

Lemma emit_after (e : event) (w : world) : emit e w = (Ok tt, after w [e]).
Proof. reflexivity. Qed.

Lemma log_after (lvl : level) (m : string) (w : world) :
  log lvl m w = (Ok tt, after w [Log lvl m]).
Proof. reflexivity. Qed.

Lemma after_after (w : world) (es es' : list event) :
  after (after w es) es' = after w (es ++ es').
Proof. unfold after. simpl. now rewrite <- app_assoc. Qed.

Lemma after_nil (w : world) : after w [] = w.
Proof. destruct w. unfold after. simpl. now rewrite app_nil_r. Qed.

Lemma recv_chunk (n : Z) (w : world) (text : string) (rest : list delivery) :
  inbox w = Chunk text :: rest ->
  recv n w = (Ok text, received w (Recv n) rest).
Proof. intros H. unfold recv. now rewrite H. Qed.

Lemma recv_silence (n : Z) (w : world) (rest : list delivery) :
  inbox w = Silence :: rest ->
  recv n w = (Raise SocketTimeout, received w (RecvTimedOut n) rest).
Proof. intros H. unfold recv. now rewrite H. Qed.

(** ** Calls only add to the trace *)

Lemma extends_ret {A} (a : A) : extends (ret a).
Proof. intros w. exists []. simpl. now rewrite app_nil_r. Qed.

Lemma extends_lift {A} (r : result A) : extends (lift r).
Proof. intros w. exists []. simpl. now rewrite app_nil_r. Qed.

Lemma extends_emit (e : event) : extends (emit e).
Proof. intros w. now exists [e]. Qed.

Lemma extends_log (lvl : level) (m : string) : extends (log lvl m).
Proof. apply extends_emit. Qed.

Lemma extends_recv (n : Z) : extends (recv n).
Proof.
  intros w. unfold recv. destruct (inbox w) as [|[text|] rest]; simpl.
  - now exists [RecvTimedOut n].
  - now exists [Recv n].
  - now exists [RecvTimedOut n].
Qed.

Lemma extends_bind {A B} (m : M A) (k : A -> M B) :
  extends m -> (forall a, extends (k a)) -> extends (bind m k).
Proof.
  intros Hm Hk w. unfold bind. destruct (Hm w) as [es Hes].
  destruct (m w) as [[a| e |] w1]; simpl in Hes.
  - destruct (Hk a w1) as [es' Hes']. exists (es ++ es')%list.
    now rewrite Hes', Hes, app_assoc.
  - now exists es.
  - now exists es.
Qed.

Lemma extends_when (cond : bool) (m : M unit) :
  extends m -> extends (when cond m).
Proof. intros H. destruct cond; [exact H | apply extends_ret]. Qed.

Lemma extends_logger_info (self : E4Client) (m : string) :
  extends (logger_info self m).
Proof.
  unfold logger_info. destruct (verbose self);
    [apply extends_log | apply extends_ret].
Qed.

Lemma extends_for_each {A} (xs : list A) (body : A -> M unit) :
  (forall x, extends (body x)) -> extends (for_each xs body).
Proof.
  intros H. induction xs as [|x xs IH]; simpl.
  - apply extends_ret.
  - apply extends_bind; [apply H | intros _; exact IH].
Qed.

Lemma extends_msg_attribute (name : string) : extends (msg_attribute name).
Proof.
  unfold msg_attribute. destruct (existsb (String.eqb name) messages_names);
    [apply extends_ret | apply extends_lift].
Qed.

Lemma extends_enum_member_attribute (name : string) :
  extends (enum_member_attribute name).
Proof.
  unfold enum_member_attribute.
  destruct (existsb (String.eqb name) enum_member_names);
    [apply extends_ret | apply extends_lift].
Qed.

End MonadFacts.

Import MonadFacts.

Create HintDb extends_db.
#[export] Hint Resolve extends_ret extends_lift extends_emit extends_log
  extends_recv extends_when extends_logger_info extends_for_each
  extends_msg_attribute extends_enum_member_attribute : extends_db.

Ltac extends_tac :=
  repeat (first [ solve [auto with extends_db]
                | apply extends_bind; [|intros ?] ]).

Lemma extends_pause_stream (self : E4Client) : extends (_pause_stream self).
Proof. unfold _pause_stream. extends_tac. Qed.

Lemma extends_connect_device (self : E4Client) : extends (_connect_device self).
Proof. unfold _connect_device. extends_tac. Qed.

Lemma extends_subscribe (self : E4Client) (sub : string) :
  extends (subscribe self sub).
Proof. unfold subscribe. extends_tac. Qed.

#[export] Hint Resolve extends_pause_stream extends_connect_device
  extends_subscribe : extends_db.

Lemma extends_connect (self : E4Client) : extends (connect self).
Proof. unfold connect. extends_tac. Qed.

(* ================================================================== *)
(** * Acknowledgements that do not match *)
(* ================================================================== *)

Lemma sent_app (tr : list event) (es : list event) (i : list delivery)
      (r : option bool) :
  sent {| trace := tr ++ es; inbox := i; running := r |} =
  (sent {| trace := tr; inbox := i; running := r |}
   ++ sent {| trace := es; inbox := i; running := r |})%list.
Proof. unfold sent. cbn [trace]. apply flat_map_app. Qed.

Lemma logged_app (lvl : level) (tr es : list event) (i : list delivery)
      (r : option bool) :
  logged lvl {| trace := tr ++ es; inbox := i; running := r |} =
  (logged lvl {| trace := tr; inbox := i; running := r |}
   ++ logged lvl {| trace := es; inbox := i; running := r |})%list.
Proof. unfold logged. cbn [trace]. apply flat_map_app. Qed.

Lemma sent_irrelevant (tr : list event) (i i' : list delivery)
      (r r' : option bool) :
  sent {| trace := tr; inbox := i; running := r |} =
  sent {| trace := tr; inbox := i'; running := r' |}.
Proof. reflexivity. Qed.

(** Runs the calls of a body on a world whose fields are in view. *)
Ltac run_calls :=
  cbv beta delta [bind ret lift when log emit recv logger_info set_running
                  except_timeout after received] iota;
  cbn [trace inbox running fst snd negb].

(** C2, evaluated.  [subscribe] never gets to the reply.  Right after its
    first log it looks [SEND] up in the module [messages], which has no such
    name: it ends with [AttributeError], whatever is to be received, before
    the command is sent, so that no acknowledgement is read or compared and
    no mismatch is reported for the subscription. *)
Theorem subscribe_raises_before_it_sends
        (self : E4Client) (subscription : string) (w : world) :
  subscribe self subscription w =
  (Raise AttributeError,
   {| trace := trace w ++
               [Log INFO ("Suscribing to " ++ subscription ++ "...")];
      inbox := inbox w;
      running := running w |})
  /\ sent (snd (subscribe self subscription w)) = sent w
  /\ logged ERROR (snd (subscribe self subscription w)) = logged ERROR w.
Proof.
  assert (Hrun : subscribe self subscription w =
                 (Raise AttributeError,
                  after w [Log INFO ("Suscribing to " ++ subscription ++ "...")])).
  { unfold subscribe. rewrite (bind_ok _ _ _ _ _ (log_after _ _ _)).
    reflexivity. }
  rewrite Hrun. split; [reflexivity |].
  destruct w as [tr i r]. unfold after. cbn [snd trace inbox running].
  rewrite sent_app, logged_app. cbn. now rewrite !app_nil_r.
Qed.

Example subscribe_mismatch_example :
  subscribe example_client "bvp"
            (fresh_world [Chunk ("R device_subscribe bvp ERR" ++ lf)])
  = (Raise AttributeError,
     {| trace := [Log INFO "Suscribing to bvp..."];
        inbox := [Chunk ("R device_subscribe bvp ERR" ++ lf)];
        running := None |}).
Proof. reflexivity. Qed.

(** Runs the first call of a sequence, [H] telling what it comes to. *)
Ltac step H :=
  try rewrite bind_assoc;
  rewrite (bind_ok _ _ _ _ _ H);
  cbv beta.

Ltac step_emit :=
  try rewrite bind_assoc;
  rewrite (bind_ok _ _ _ _ _ (emit_after _ _));
  cbv beta.

Ltac step_log :=
  try rewrite bind_assoc;
  rewrite (bind_ok _ _ _ _ _ (log_after _ _ _));
  cbv beta.

(** Runs a [recv] that heads a sequence, [H] telling the next delivery. *)
Ltac step_recv H :=
  try rewrite bind_assoc;
  match goal with
  | |- context [bind (recv ?n) ?k ?W] =>
      match type of H with
      | _ = Chunk ?text :: ?rest =>
          rewrite (bind_ok _ _ _ _ _
                     (recv_chunk n W text rest (H : inbox W = Chunk text :: rest)))
      end
  end;
  cbv beta.

(** C3, evaluated.  When the answer to [device_list] does not contain the
    device id, [connect] logs it and goes on: the next call on the socket
    sends [device_connect] for that very id. *)
Theorem connect_goes_on_without_the_device
        (self : E4Client) (reply : string) (rest : list delivery) (w : world)
        (Hinbox : inbox w = Chunk reply :: rest)
        (Habsent : contains (device_id self) reply = false) :
  exists events,
    trace (snd (connect self w)) =
    (trace w
     ++ (if verbose self then [Log INFO "Connecting to server..."] else [])
     ++ [SockConnect (ip self) (port self);
         Log INFO "Querying for available devices.";
         Send COMMAND_LIST;
         Recv (buffer_size self);
         Log ERROR ("Device ID " ++ device_id self
                    ++ " not in available devices.");
         Log INFO "Connecting to device";
         Send (COMMAND_DEV_CONNECT (device_id self))]
     ++ events)%list.
Proof.
  assert (Hlogger : logger_info self "Connecting to server..." w =
                    (Ok tt, after w (if verbose self
                                     then [Log INFO "Connecting to server..."]
                                     else []))).
  { unfold logger_info. destruct (verbose self); [reflexivity |].
    now rewrite after_nil. }
  unfold connect. step Hlogger.
  step_emit.
  unfold _connect_device.
  step_log. step_emit.
  step_recv Hinbox.
  rewrite Habsent. cbn [negb when].
  step_log. step_log. step_emit.
  match goal with
  | |- context [snd (?m ?w')] =>
      assert (Hrest : extends m) by extends_tac;
      destruct (Hrest w') as [events Hevents]
  end.
  exists events. rewrite Hevents.
  unfold after, received. cbn [trace]. now rewrite <- !app_assoc.
Qed.

(** A device list that does not name the device, followed by the
    acknowledgements awaited: the three commands go out, and the call ends
    in the first [subscribe]. *)
Example connect_unknown_device_example :
  let w := snd (connect example_client
                  (fresh_world [Chunk ("R device_list 1 | B99999 Empatica_E4" ++ lf);
                                Chunk DEV_ACK_OK;
                                Chunk PAUSE_ON_ACK;
                                Chunk (SUB_ACK_OK "acc");
                                Chunk (SUB_ACK_OK "tag")])) in
  fst (connect example_client
         (fresh_world [Chunk ("R device_list 1 | B99999 Empatica_E4" ++ lf);
                       Chunk DEV_ACK_OK;
                       Chunk PAUSE_ON_ACK;
                       Chunk (SUB_ACK_OK "acc");
                       Chunk (SUB_ACK_OK "tag")])) = Raise AttributeError
  /\ sent w = ["device_list" ++ crlf;
               "device_connect A01234" ++ crlf;
               "pause ON" ++ crlf]
  /\ logged ERROR w = ["Device ID A01234 not in available devices."]
  /\ fst (connect bare_client
            (fresh_world [Chunk ("R device_list 1 | B99999 Empatica_E4" ++ lf);
                          Chunk DEV_ACK_OK;
                          Chunk PAUSE_ON_ACK])) = Ok tt.
Proof. repeat split. Qed.

Lemma connect_goes_on_without_the_device_witness :
  exists events,
    trace (snd (connect example_client
                  (fresh_world [Chunk ("R device_list 1 | B99999 Empatica_E4" ++ lf);
                                Chunk DEV_ACK_OK])))
    = ([SockConnect "127.0.0.1" 28000;
        Log INFO "Querying for available devices.";
        Send ("device_list" ++ crlf);
        Recv 4096;
        Log ERROR "Device ID A01234 not in available devices.";
        Log INFO "Connecting to device";
        Send ("device_connect A01234" ++ crlf)] ++ events)%list.
Proof.
  apply (connect_goes_on_without_the_device
           example_client ("R device_list 1 | B99999 Empatica_E4" ++ lf)
           [Chunk DEV_ACK_OK]
           (fresh_world [Chunk ("R device_list 1 | B99999 Empatica_E4" ++ lf);
                         Chunk DEV_ACK_OK])).
  - reflexivity.
  - reflexivity.
Defined.

(** C4, evaluated.  When the text received contains the phrase that tells
    the device is lost, [get_data] logs it and goes on: the lines are split
    and decoded as ever, and the samples of the buffer are returned. *)
Theorem get_data_logs_loss_and_decodes
        (Float : Type) (float : string -> option Float)
        (self : E4Client) (response : string) (rest : list delivery) (w : world)
        (Hinbox : inbox w = Chunk response :: rest)
        (Hlost : contains DISCONNECT_MESSAGE response = true) :
  get_data float self w =
  (parse_data_packets float (_split_response response),
   {| trace := trace w ++
               [Recv (buffer_size self);
                Log ERROR ("Lost connection to device "
                           ++ device_id self ++ ".")];
      inbox := rest;
      running := running w |}).
Proof.
  destruct w as [tr inb run]. cbn [inbox] in Hinbox. subst inb.
  unfold get_data. run_calls. rewrite Hlost. run_calls.
  rewrite <- !app_assoc. cbn [app].
  now destruct (parse_data_packets float (_split_response response)).
Qed.

Lemma get_data_logs_loss_and_decodes_witness :
  fst (get_data Decimal.float example_client
         (fresh_world [Chunk ("E4_Gsr 1,5 0,25" ++ lf
                              ++ "R connection lost to device A01234" ++ lf)]))
  = Ok [("E4_Gsr", Qmake 3 2, Scalar (Qmake 1 4))].
Proof.
  rewrite (get_data_logs_loss_and_decodes
             Q Decimal.float example_client
             ("E4_Gsr 1,5 0,25" ++ lf ++ "R connection lost to device A01234" ++ lf)
             []
             (fresh_world [Chunk ("E4_Gsr 1,5 0,25" ++ lf
                                  ++ "R connection lost to device A01234" ++ lf)])
             eq_refl eq_refl).
  reflexivity.
Defined.

(* ================================================================== *)
(** * Reconnecting *)
(* ================================================================== *)

Lemma reset_socket_after (self : E4Client) (w : world) :
  reset_socket self w =
  (Ok tt,
   after w ((if verbose self then [Log INFO "Resetting socket"] else [])
            ++ [Shutdown; Close; SocketNew; SetTimeout (timeout self)])).
Proof.
  unfold reset_socket, logger_info.
  destruct (verbose self).
  - step_log. step_emit. step_emit. step_emit. rewrite emit_after.
    now rewrite !after_after.
  - unfold bind at 1, ret.
    step_emit. step_emit. step_emit. rewrite emit_after.
    now rewrite !after_after.
Qed.

(** C9, as the code has it.  [reconnect] shuts the socket down and closes
    it, without sending the disconnect command, makes a new socket with the
    same timeout, and performs [connect] for the same client, that is with
    the same device id and the same subscriptions: the calls of that [connect]
    follow those of the reset in the trace of [reconnect], and an exception
    that it raises ends [reconnect]. *)
Theorem reconnect_resets_then_connects (self : E4Client) (w : world) :
  let w1 := after w ((if verbose self then [Log INFO "Resetting socket"] else [])
                     ++ [Shutdown; Close; SocketNew; SetTimeout (timeout self)]) in
  reset_socket self w = (Ok tt, w1)
  /\ reset self w = connect self w1
  /\ (exists events,
        trace (snd (reconnect self w)) =
        (trace (snd (connect self w1)) ++ events)%list)
  /\ (forall e, fst (connect self w1) = Raise e ->
                reconnect self w = connect self w1).
Proof.
  intros w1. pose proof (reset_socket_after self w) as Hreset. fold w1 in Hreset.
  assert (Hconnect : reset self w = connect self w1).
  { unfold reset. now rewrite (bind_ok _ _ _ _ _ Hreset). }
  split; [exact Hreset | split; [exact Hconnect | split]].
  - unfold reconnect, bind at 1. rewrite Hconnect.
    destruct (connect self w1) as [[[]|e|] w2]; cbn [snd].
    + apply extends_connect.
    + exists []. now rewrite app_nil_r.
    + exists []. now rewrite app_nil_r.
  - intros e He. unfold reconnect, bind at 1. rewrite Hconnect.
    destruct (connect self w1) as [[[]|e'|] w2]; cbn [fst] in He;
      [discriminate | reflexivity | discriminate].
Qed.

Lemma reconnect_resets_then_connects_witness :
  let handshake := [Chunk ("R device_list 1 | A01234 Empatica_E4" ++ lf);
                    Chunk DEV_ACK_OK;
                    Chunk PAUSE_ON_ACK] in
  let w := fresh_world handshake in
  let w1 := {| trace := [Shutdown; Close; SocketNew; SetTimeout 3];
               inbox := handshake;
               running := None |} in
  reset_socket bare_client w = (Ok tt, w1)
  /\ fst (reset bare_client w) = Ok tt
  /\ sent (snd (reset bare_client w))
     = ["device_list" ++ crlf; "device_connect A01234" ++ crlf; "pause ON" ++ crlf]
  /\ (exists events,
        trace (snd (reconnect bare_client w))
        = (trace (snd (connect bare_client w1)) ++ events)%list)
  /\ reconnect example_client w = connect example_client w1
  /\ fst (reconnect example_client w) = Raise AttributeError.
Proof.
  cbv zeta.
  pose proof (reconnect_resets_then_connects
                bare_client
                (fresh_world [Chunk ("R device_list 1 | A01234 Empatica_E4" ++ lf);
                              Chunk DEV_ACK_OK; Chunk PAUSE_ON_ACK]))
    as [Hreset [Hsame [Htrace _]]].
  pose proof (reconnect_resets_then_connects
                example_client
                (fresh_world [Chunk ("R device_list 1 | A01234 Empatica_E4" ++ lf);
                              Chunk DEV_ACK_OK; Chunk PAUSE_ON_ACK]))
    as [_ [_ [_ Hraise]]].
  split; [exact Hreset | split; [| split; [| split; [exact Htrace | split]]]].
  - rewrite Hsame. reflexivity.
  - rewrite Hsame. reflexivity.
  - exact (Hraise AttributeError eq_refl).
  - rewrite (Hraise AttributeError eq_refl). reflexivity.
Defined.

(** C9, as the claim states it, fails.  For a client without subscriptions
    and with the acknowledgements of two handshakes to come, [reconnect]
    shuts the socket down, makes a new one and sends the three commands of
    the handshake twice; [disconnect] with its errors ignored followed by one
    [connect] touches no socket, [disconnect] ending on the lookup of
    [msg.SEND], and sends the three commands once. *)
Lemma reconnect_is_not_disconnect_then_connect :
  let handshake := [Chunk ("R device_list 1 | A01234 Empatica_E4" ++ lf);
                    Chunk DEV_ACK_OK;
                    Chunk PAUSE_ON_ACK] in
  let w := fresh_world (handshake ++ handshake) in
  (fst (reconnect bare_client w) = Ok tt
   /\ sent (snd (reconnect bare_client w))
      = ["device_list" ++ crlf; "device_connect A01234" ++ crlf; "pause ON" ++ crlf;
         "device_list" ++ crlf; "device_connect A01234" ++ crlf; "pause ON" ++ crlf]
   /\ inbox (snd (reconnect bare_client w)) = [])
  /\ (fst (spec_reconnect bare_client w) = Ok tt
      /\ sent (snd (spec_reconnect bare_client w))
         = ["device_list" ++ crlf; "device_connect A01234" ++ crlf;
            "pause ON" ++ crlf]
      /\ inbox (snd (spec_reconnect bare_client w)) = handshake)
  /\ (In Shutdown (trace (snd (reconnect bare_client w)))
      /\ ~ In Shutdown (trace (snd (spec_reconnect bare_client w))))
  /\ reconnect bare_client w <> spec_reconnect bare_client w.
Proof.
  cbv zeta. split; [|split; [|split; [split|]]].
  - split; [|split]; vm_compute; reflexivity.
  - split; [|split]; vm_compute; reflexivity.
  - vm_compute. tauto.
  - vm_compute. intros H.
    repeat (destruct H as [H | H]; [discriminate |]). exact H.
  - intros H. apply (f_equal (fun r => sent (snd r))) in H.
    vm_compute in H. discriminate H.
Qed.

(* ================================================================== *)
(** * Waiting for the tag *)
(* ================================================================== *)

Section TagFacts.

Variable Float : Type.
Variable float : string -> option Float.

(** No packet contains the tag code: the scan returns [None]. *)
Lemma scan_for_tag_miss (packets : list string) (w : world) :
  Forall (fun p => contains "E4_Tag" p = false) packets ->
  _scan_for_tag float packets w = (Ok None, w).
Proof.
  induction 1 as [|p ps Hp _ IH]; [reflexivity |].
  cbn [_scan_for_tag]. now rewrite Hp.
Qed.

(** The first packet that contains the tag code decides the scan. *)
Lemma scan_for_tag_hit (earlier later : list string) (line : string)
      (w : world) :
  Forall (fun p => contains "E4_Tag" p = false) earlier ->
  contains "E4_Tag" line = true ->
  _scan_for_tag float (earlier ++ line :: later) w =
  ((stamp <~ number_at float (split_ws line) 1 ;; Ok (Some stamp))%result,
   after w [Log INFO "Found tag."]).
Proof.
  intros Hearlier Hline.
  induction Hearlier as [|p ps Hp _ IH].
  - cbn [app _scan_for_tag]. rewrite Hline.
    step_log. unfold number_at, bind, lift, ret.
    destruct (index (split_ws line) 1) as [token| |]; cbn [bind_result];
      [|reflexivity|reflexivity].
    now destruct (number float token).
  - cbn [app _scan_for_tag]. now rewrite Hp.
Qed.

(** C10.  The scan matches by containment: the first packet in which
    [E4_Tag] occurs, wherever in its text, ends the scan, and what is
    returned is its second token read as a number once its commas are
    periods; when [E4_Tag] occurs in no packet the scan returns [None].
    The first token of a packet plays no part. *)
Theorem scan_for_tag_matches_by_containment
        (earlier later : list string) (before rest : string) (w : world)
        (Hearlier : Forall (fun p => contains "E4_Tag" p = false) earlier) :
  _scan_for_tag float (earlier ++ (before ++ "E4_Tag" ++ rest) :: later) w =
    ((stamp <~ number_at float (split_ws (before ++ "E4_Tag" ++ rest)) 1 ;;
      Ok (Some stamp))%result,
     after w [Log INFO "Found tag."])
  /\ _scan_for_tag float earlier w = (Ok None, w).
Proof.
  split.
  - apply scan_for_tag_hit; [exact Hearlier |].
    apply contains_spec. now exists before, rest.
  - now apply scan_for_tag_miss.
Qed.

Variable self : E4Client.

(** A turn of the loop on a timeout: logged, and the loop goes on. *)
Lemma poll_turn_silence (w : world) (rest : list delivery) :
  inbox w = Silence :: rest ->
  exists w', poll_turn float self w = (Ok None, w') /\ inbox w' = rest.
Proof.
  intros H. unfold poll_turn, except_timeout, _receive.
  rewrite (bind_raise _ _ _ _ _ (recv_silence _ _ _ H)).
  rewrite (bind_ok _ _ _ _ _ (log_after _ _ _)).
  eexists. split; reflexivity.
Qed.

(** A turn of the loop on a text without the tag code: the loop goes on. *)
Lemma poll_turn_quiet (w : world) (text : string) (rest : list delivery) :
  inbox w = Chunk text :: rest ->
  without "E4_Tag" (Chunk text) ->
  exists w', poll_turn float self w = (Ok None, w') /\ inbox w' = rest.
Proof.
  intros H Hquiet. unfold poll_turn, except_timeout, _receive.
  rewrite (bind_ok _ _ _ _ _ (recv_chunk _ _ _ _ H)).
  rewrite scan_for_tag_miss.
  - eexists. split; reflexivity.
  - apply Forall_forall. exact Hquiet.
Qed.

(** A turn of the loop on a text with a line that contains the tag code. *)
Lemma poll_turn_hit (w : world) (text : string) (rest : list delivery)
      (before after_ : list string) (line : string) :
  inbox w = Chunk text :: rest ->
  _split_response text = (before ++ line :: after_)%list ->
  Forall (fun p => contains "E4_Tag" p = false) before ->
  contains "E4_Tag" line = true ->
  exists w',
    poll_turn float self w =
    ((stamp <~ number_at float (split_ws line) 1 ;; Ok (Some stamp))%result, w')
    /\ inbox w' = rest.
Proof.
  intros H Hlines Hbefore Hline. unfold poll_turn, except_timeout, _receive.
  rewrite (bind_ok _ _ _ _ _ (recv_chunk _ _ _ _ H)).
  rewrite Hlines, (scan_for_tag_hit before after_ line _ Hbefore Hline).
  destruct (number_at_fails_or_ok Float float (split_ws line) 1)
    as [[E|E]|[v E]]; rewrite E; cbn [bind_result];
    eexists; split; reflexivity.
Qed.

(** The turns spent on deliveries without the tag code. *)
Lemma poll_loop_quiet (quiet rest : list delivery) (turns : nat) :
  Forall (without "E4_Tag") quiet ->
  forall w, inbox w = (quiet ++ rest)%list ->
  exists w', inbox w' = rest /\
             poll_loop float self (length quiet + turns) w =
             poll_loop float self turns w'.
Proof.
  induction 1 as [|d quiet Hd _ IH]; intros w Hw.
  - exists w. split; [exact Hw | reflexivity].
  - cbn [length Nat.add poll_loop].
    assert (Hturn : exists w1,
               poll_turn float self w = (Ok None, w1)
               /\ inbox w1 = (quiet ++ rest)%list).
    { destruct d as [text|].
      - now apply poll_turn_quiet with (text := text).
      - now apply poll_turn_silence. }
    destruct Hturn as [w1 [Hturn Hw1]].
    rewrite (bind_ok _ _ _ _ _ Hturn).
    exact (IH w1 Hw1).
Qed.

(** C8, as the code has it.  [poll_for_tag] takes the deliveries in the
    order they arrive, goes on after a timeout and after a text none of
    whose lines contains [E4_Tag], and on the first text with such a line
    returns the second token of the first such line, read as a number; on
    the line [E4_Tag 12,50] that is [float("12.50")]. *)
Theorem poll_for_tag_first_line_with_tag
        (quiet later : list delivery) (text : string)
        (before after_ : list string) (line : string)
        (turns : nat) (w : world)
        (Hinbox : inbox w = (quiet ++ Chunk text :: later)%list)
        (Hquiet : Forall (without "E4_Tag") quiet)
        (Hlines : _split_response text = (before ++ line :: after_)%list)
        (Hbefore : Forall (fun p => contains "E4_Tag" p = false) before)
        (Hline : contains "E4_Tag" line = true)
        (Hturns : (length quiet < turns)%nat) :
  fst (poll_for_tag float self turns w) = number_at float (split_ws line) 1
  /\ inbox (snd (poll_for_tag float self turns w)) = later
  /\ (line = "E4_Tag 12,50" ->
      fst (poll_for_tag float self turns w) = py_float float "12.50").
Proof.
  assert (Hrun : fst (poll_for_tag float self turns w)
                 = number_at float (split_ws line) 1
                 /\ inbox (snd (poll_for_tag float self turns w)) = later).
  { unfold poll_for_tag. step_log.
    replace turns with (length quiet + S (turns - S (length quiet)))%nat by lia.
    destruct (poll_loop_quiet quiet (Chunk text :: later)
                (S (turns - S (length quiet))) Hquiet
                (after w [Log INFO "Polling for tag..."]) Hinbox)
      as [w1 [Hw1 Hloop]].
    rewrite Hloop. cbn [poll_loop].
    destruct (poll_turn_hit w1 text later before after_ line
                Hw1 Hlines Hbefore Hline) as [w2 [Hturn Hw2]].
    unfold bind. rewrite Hturn.
    destruct (number_at float (split_ws line) 1) as [stamp|e|];
      cbn [bind_result ret fst snd]; split; (reflexivity || assumption). }
  destruct Hrun as [Hfst Hsnd].
  split; [exact Hfst | split; [exact Hsnd |]].
  intros ->. rewrite Hfst. reflexivity.
Qed.

End TagFacts.

(* ================================================================== *)
(** * The statements at concrete lines *)
(* ================================================================== *)

Lemma withoutb_sound (needle : string) (d : delivery) :
  withoutb needle d = true -> without needle d.
Proof.
  destruct d as [text|]; simpl; [|trivial].
  intros H line Hin. rewrite forallb_forall in H.
  apply negb_true_iff. now apply H.
Qed.

Example split_response_example :
  _split_response ("R pause ON" ++ lf ++ lf ++ "E4_Gsr 1,0 0,5" ++ lf)
  = ["R pause ON"; ""; "E4_Gsr 1,0 0,5"; ""].
Proof. reflexivity. Qed.

Example split_ws_example :
  split_ws ("  E4_Acc 1,5" ++ String CR "" ++ "  -2 0 " ++ lf ++ " 64 ")
  = ["E4_Acc"; "1,5"; "-2"; "0"; "64"].
Proof. reflexivity. Qed.

Example contains_example :
  contains "E4_Tag" "R device_subscribe E4_Tag OK" = true
  /\ contains "E4_Tag" "E4_Temperature 1,0 2,0" = false.
Proof. split; reflexivity. Qed.

Example parse_packet_scalar_example :
  _parse_packet Decimal.float "E4_Gsr 123345627891,123 3,129"
  = Ok ("E4_Gsr", Qmake 123345627891123 1000, Scalar (Qmake 3129 1000)).
Proof. reflexivity. Qed.

Example parse_packet_tag_line_example :
  _parse_packet Decimal.float "E4_Tag 12,50" = Raise IndexError.
Proof. reflexivity. Qed.

Example get_data_example :
  fst (get_data Decimal.float example_client
         (fresh_world [Chunk ("R pause OFF" ++ lf ++ "E4_Acc 1,5 -2 0 64" ++ lf
                              ++ lf ++ "E4_Temperature 2.5 31,75" ++ lf)]))
  = Ok [("E4_Acc", Qmake 3 2, Vec3 (Qmake (-2) 1) (Qmake 0 1) (Qmake 64 1));
        ("E4_Temperature", Qmake 5 2, Scalar (Qmake 127 4))].
Proof. reflexivity. Qed.

Lemma parse_packet_arity_witness :
  _parse_packet Decimal.float "E4_Acc 10,5 1 -2 64"
  = Ok ("E4_Acc", Qmake 21 2, Vec3 (Qmake 1 1) (Qmake (-2) 1) (Qmake 64 1))
  /\ decode_fails (_parse_packet Decimal.float "E4_Acc 10,5 1 -2")
  /\ decode_fails (_parse_packet Decimal.float "E4_Gsr 10,5")
  /\ _parse_packet Decimal.float "E4_Gsr 10,5 0,25"
     = Ok ("E4_Gsr", Qmake 21 2, Scalar (Qmake 1 4)).
Proof.
  split; [|split; [|split]].
  - exact (proj1 (proj2 (parse_packet_arity
                           Q Decimal.float "E4_Acc 10,5 1 -2 64" "E4_Acc"
                           ["10,5"; "1"; "-2"; "64"] eq_refl))
             eq_refl "10,5" "1" "-2" "64" _ _ _ _
             eq_refl eq_refl eq_refl eq_refl eq_refl).
  - apply (proj1 (parse_packet_arity
                    Q Decimal.float "E4_Acc 10,5 1 -2" "E4_Acc"
                    ["10,5"; "1"; "-2"] eq_refl)).
    + reflexivity.
    + simpl. lia.
  - apply (proj1 (proj2 (proj2 (parse_packet_arity
                                  Q Decimal.float "E4_Gsr 10,5" "E4_Gsr"
                                  ["10,5"] eq_refl)))).
    + discriminate.
    + simpl. lia.
  - exact (proj2 (proj2 (proj2 (parse_packet_arity
                                  Q Decimal.float "E4_Gsr 10,5 0,25" "E4_Gsr"
                                  ["10,5"; "0,25"] eq_refl)))
             ltac:(discriminate) "10,5" "0,25" _ _ eq_refl eq_refl eq_refl).
Defined.


Lemma scan_for_tag_matches_by_containment_witness :
  fst (_scan_for_tag Decimal.float
         (["E4_Gsr 1,0 0,5"] ++ ("R 3,5 " ++ "E4_Tag" ++ "") :: ["E4_Tag 12,50"])
         (fresh_world []))
  = Ok (Some (Qmake 7 2)).
Proof.
  rewrite (proj1 (scan_for_tag_matches_by_containment
                    Q Decimal.float ["E4_Gsr 1,0 0,5"] ["E4_Tag 12,50"]
                    "R 3,5 " "" (fresh_world [])
                    ltac:(repeat constructor))).
  reflexivity.
Defined.

Lemma poll_for_tag_first_line_with_tag_witness :
  fst (poll_for_tag Decimal.float example_client 3
         (fresh_world [Silence;
                       Chunk ("E4_Gsr 1,0 0,5" ++ lf);
                       Chunk ("E4_Bvp 2,0 1,5" ++ lf ++ "E4_Tag 12,50" ++ lf
                              ++ "E4_Gsr 3,0 0,5" ++ lf);
                       Chunk ("E4_Gsr 4,0 0,5" ++ lf)]))
  = Ok (Qmake 25 2).
Proof.
  exact (proj1 (poll_for_tag_first_line_with_tag
                  Q Decimal.float example_client
                  [Silence; Chunk ("E4_Gsr 1,0 0,5" ++ lf)]
                  [Chunk ("E4_Gsr 4,0 0,5" ++ lf)]
                  ("E4_Bvp 2,0 1,5" ++ lf ++ "E4_Tag 12,50" ++ lf
                   ++ "E4_Gsr 3,0 0,5" ++ lf)
                  ["E4_Bvp 2,0 1,5"] ["E4_Gsr 3,0 0,5"; ""] "E4_Tag 12,50"
                  3%nat
                  (fresh_world [Silence;
                                Chunk ("E4_Gsr 1,0 0,5" ++ lf);
                                Chunk ("E4_Bvp 2,0 1,5" ++ lf ++ "E4_Tag 12,50" ++ lf
                                       ++ "E4_Gsr 3,0 0,5" ++ lf);
                                Chunk ("E4_Gsr 4,0 0,5" ++ lf)])
                  eq_refl
                  (Forall_cons _ (withoutb_sound "E4_Tag" Silence eq_refl)
                     (Forall_cons _ (withoutb_sound "E4_Tag"
                                       (Chunk ("E4_Gsr 1,0 0,5" ++ lf)) eq_refl)
                        (Forall_nil _)))
                  eq_refl
                  ltac:(repeat constructor)
                  eq_refl
                  ltac:(simpl; lia))).
Defined.

(** C8, as the claim states it, fails, in two ways.  A sample of another
    stream whose text contains [E4_Tag] is taken for the tag: its second
    token is returned, not the timestamp of the line whose stream code is the
    tag code.  And when a [recv] ends inside the line of the tag, the part
    received is taken for the tag and has no second token. *)
Lemma poll_for_tag_is_not_by_stream_code :
  let text := "E4_Gsr 3,00 0,5 E4_Tag" ++ lf ++ "E4_Tag 12,50" ++ lf in
  (In "E4_Tag 12,50" (_split_response text)
   /\ spec_scan_by_stream_code Decimal.float (_split_response text)
      = Ok (Some (Qmake 25 2))
   /\ fst (poll_for_tag Decimal.float example_client 1 (fresh_world [Chunk text]))
      = Ok (Qmake 3 1)
   /\ fst (poll_for_tag Decimal.float example_client 1 (fresh_world [Chunk text]))
      <> Ok (Qmake 25 2))
  /\ (buffer_of ["E4_Gsr 3,00 0,5" ++ lf ++ "E4_Tag"; " 12,50" ++ lf]
      = "E4_Gsr 3,00 0,5" ++ lf ++ "E4_Tag 12,50" ++ lf
      /\ fst (poll_for_tag Decimal.float example_client 2
                (fresh_world [Chunk ("E4_Gsr 3,00 0,5" ++ lf ++ "E4_Tag");
                              Chunk (" 12,50" ++ lf)]))
         = Raise IndexError).
Proof.
  cbv zeta. repeat split; try reflexivity.
  - right. left. reflexivity.
  - discriminate.
Qed.

(* ================================================================== *)
(** * Whole handshakes *)
(* ================================================================== *)

(** Two calls in a row. *)
Lemma performs_bind (m : M unit) (k : unit -> M unit) (w : world)
      (c1 c2 e1 e2 : list string) (r1 r2 : list delivery) :
  performs m w c1 e1 r1 ->
  performs (k tt) (snd (m w)) c2 e2 r2 ->
  performs (bind m k) w (c1 ++ c2) (e1 ++ e2) r2.
Proof.
  unfold performs, bind. intros [H1 [H2 [H3 [H4 H5]]]] [K1 [K2 [K3 [K4 K5]]]].
  destruct (m w) as [[[]|e|] w1]; cbn [fst snd] in *; try discriminate.
  repeat split.
  - exact K1.
  - now rewrite K2, H2, app_assoc.
  - now rewrite K3, H3, app_assoc.
  - exact K4.
  - now rewrite K5.
Qed.

Lemma performs_logger_info (self : E4Client) (message : string) (w : world) :
  performs (logger_info self message) w [] [] (inbox w).
Proof.
  unfold performs, logger_info. destruct w as [tr i r].
  destruct (verbose self); cbn [fst snd log emit ret trace inbox running].
  - rewrite sent_app, logged_app. cbn. rewrite !app_nil_r. repeat split.
  - rewrite !app_nil_r. repeat split.
Qed.

Lemma performs_emit_silent (e : event) (w : world) :
  match e with Send _ | Log ERROR _ => False | _ => True end ->
  performs (emit e) w [] [] (inbox w).
Proof.
  unfold performs, emit. destruct w as [tr i r]. intros He.
  cbn [fst snd trace inbox running].
  rewrite sent_app, logged_app.
  destruct e as [| | | | | | | |[] msg]; try contradiction;
    cbn; rewrite !app_nil_r; repeat split.
Qed.

(** Solves [performs] for a body made of logs, sends, one [recv] and
    guards, once the next delivery is in view. *)
Ltac performs_by_running :=
  unfold performs;
  repeat (cbv beta delta [bind ret lift when log emit recv] iota;
          cbn [trace inbox running fst snd];
          match goal with
          | |- context [negb ?b] => destruct b; cbn [negb]
          | |- context [if ?b then _ else _] => destruct b
          end);
  cbv beta delta [bind ret lift when log emit recv] iota;
  cbn [trace inbox running fst snd];
  rewrite ?sent_app, ?logged_app; cbn; rewrite ?app_nil_r;
  rewrite <- ?app_assoc; cbn [app];
  repeat split.

Lemma performs_pause_stream (self : E4Client) (reply : string)
      (rest : list delivery) (w : world) :
  inbox w = Chunk reply :: rest ->
  performs (_pause_stream self) w
           [COMMAND_PAUSE]
           (if String.eqb reply PAUSE_ON_ACK then []
            else ["Could not pause stream."])
           rest.
Proof.
  intros H. destruct w as [tr i r]. cbn [inbox] in H. subst i.
  unfold _pause_stream. performs_by_running.
Qed.

Lemma performs_connect_device (self : E4Client) (listing devack : string)
      (rest : list delivery) (w : world) :
  inbox w = Chunk listing :: Chunk devack :: rest ->
  performs (_connect_device self) w
           [COMMAND_LIST; COMMAND_DEV_CONNECT (device_id self)]
           ((if contains (device_id self) listing then []
             else ["Device ID " ++ device_id self ++ " not in available devices."])
            ++ (if String.eqb devack DEV_ACK_OK then []
                else ["Could not subscribe to device " ++ device_id self]))
           rest.
Proof.
  intros H. destruct w as [tr i r]. cbn [inbox] in H. subst i.
  unfold _connect_device. performs_by_running.
Qed.

(** Two calls in a row, the second one seen from the deliveries left. *)
Lemma performs_seq (m : M unit) (k : unit -> M unit) (w : world)
      (c1 c2 e1 e2 c e : list string) (r1 r2 : list delivery) :
  performs m w c1 e1 r1 ->
  (forall w1, inbox w1 = r1 -> performs (k tt) w1 c2 e2 r2) ->
  c = (c1 ++ c2)%list -> e = (e1 ++ e2)%list ->
  performs (bind m k) w c e r2.
Proof.
  intros Hm Hk -> ->. apply performs_bind with (r1 := r1); [exact Hm |].
  apply Hk. exact (proj1 (proj2 (proj2 (proj2 Hm)))).
Qed.

Lemma bind_raises {A B} (m : M A) (k : A -> M B) (w : world) (e : exn) :
  fst (m w) = Raise e -> fst (bind m k w) = Raise e.
Proof. unfold bind. destruct (m w) as [[a|e'|] w1]; cbn [fst]; congruence. Qed.

Lemma bind_performs {B} (m : M unit) (k : unit -> M B) (w : world)
      (c e : list string) (r : list delivery) :
  performs m w c e r -> bind m k w = k tt (snd (m w)).
Proof.
  unfold performs, bind. intros [H _].
  destruct (m w) as [[[]|e'|] w1]; cbn [fst] in H; try discriminate.
  reflexivity.
Qed.

(** Runs a body up to the [recv] that finds nothing to receive. *)
Ltac dries_by_running :=
  repeat (cbv beta delta [bind ret lift when log emit recv] iota;
          cbn [trace inbox running fst snd];
          match goal with
          | |- context [negb ?b] => destruct b; cbn [negb]
          end);
  reflexivity.

(** Two calls in a row, the second of which may raise. *)
Lemma ends_seq (outcome : result unit) (m : M unit) (k : unit -> M unit)
      (w : world) (c1 c2 e1 e2 c e : list string) (r1 r2 : list delivery) :
  performs m w c1 e1 r1 ->
  (forall w1, inbox w1 = r1 -> ends outcome (k tt) w1 c2 e2 r2) ->
  c = (c1 ++ c2)%list -> e = (e1 ++ e2)%list ->
  ends outcome (bind m k) w c e r2.
Proof.
  intros Hm Hk -> ->. unfold ends. rewrite (bind_performs _ _ _ _ _ _ Hm).
  destruct Hm as [_ [H2 [H3 [H4 H5]]]].
  destruct (Hk (snd (m w)) H4) as [K1 [K2 [K3 [K4 K5]]]].
  repeat split.
  - exact K1.
  - now rewrite K2, H2, app_assoc.
  - now rewrite K3, H3, app_assoc.
  - exact K4.
  - now rewrite K5.
Qed.

(** A call that raised is the end of the sequence it heads. *)
Lemma ends_raise_bind (e : exn) (m : M unit) (k : unit -> M unit) (w : world)
      (c errs : list string) (r : list delivery) :
  ends (Raise e) m w c errs r -> ends (Raise e) (bind m k) w c errs r.
Proof.
  unfold ends, bind. intros [H1 H].
  destruct (m w) as [[[]|e'|] w1]; cbn [fst snd] in *; try discriminate.
  split; [exact H1 | exact H].
Qed.

(** [subscribe] ends on its lookup of [msg.SEND]. *)
Lemma subscribe_raises (self : E4Client) (subscription : string) (w : world) :
  subscribe self subscription w =
  (Raise AttributeError,
   after w [Log INFO ("Suscribing to " ++ subscription ++ "...")]).
Proof.
  unfold subscribe. rewrite (bind_ok _ _ _ _ _ (log_after _ _ _)).
  reflexivity.
Qed.

(** The loop over the subscriptions. *)
Lemma ends_subscriptions (self : E4Client) (w : world) :
  ends (subscriptions_outcome self)
       (for_each (subscriptions self) (subscribe self)) w [] [] (inbox w).
Proof.
  unfold ends, subscriptions_outcome.
  destruct (subscriptions self) as [|sub subs]; cbn [for_each].
  - cbn. rewrite !app_nil_r. now repeat split.
  - unfold bind. rewrite subscribe_raises. cbn [fst snd].
    destruct w as [tr i r]. unfold after. cbn [trace inbox running].
    rewrite sent_app, logged_app. cbn. rewrite !app_nil_r. now repeat split.
Qed.

(** [connect] on the three texts it reads. *)
Lemma connect_ends (self : E4Client) (listing devack pauseack : string)
      (rest : list delivery) (w : world) :
  inbox w = Chunk listing :: Chunk devack :: Chunk pauseack :: rest ->
  ends (subscriptions_outcome self) (connect self) w
       (handshake_commands self)
       (connect_errors self listing devack pauseack) rest.
Proof.
  intros Hinbox. unfold connect, handshake_commands, connect_errors.
  eapply ends_seq with (c1 := []) (e1 := []);
    [apply performs_logger_info | intros w1 H1 | reflexivity | reflexivity].
  eapply ends_seq with (c1 := []) (e1 := []);
    [apply performs_emit_silent; exact I | intros w2 H2
     | reflexivity | reflexivity].
  rewrite H1, Hinbox in H2.
  eapply ends_seq;
    [apply (performs_connect_device self listing devack _ w2 H2)
    | intros w3 H3 | reflexivity | rewrite <- app_assoc; reflexivity].
  eapply ends_seq with (c1 := []) (e1 := []);
    [apply performs_logger_info | intros w4 H4 | reflexivity | reflexivity].
  rewrite H3 in H4.
  eapply ends_seq with (c2 := []) (e2 := []);
    [apply (performs_pause_stream self pauseack _ w4 H4)
    | intros w5 H5 | reflexivity | now rewrite app_nil_r].
  rewrite <- H5. apply ends_subscriptions.
Qed.

(** X1.  [connect] never fails on what the server answers.  Given the
    three texts it reads, whatever they are, it sends [device_list],
    [device_connect] for the device and [pause ON], and the texts only decide
    which errors are logged.  It then returns when the client has no
    subscription; with a subscription it ends with the [AttributeError] of
    the first [subscribe], no subscription command being sent and nothing
    more being read. *)
Theorem connect_completes_whatever_the_replies
        (self : E4Client) (listing devack pauseack : string)
        (rest : list delivery) (w : world)
        (Hinbox : inbox w
                  = Chunk listing :: Chunk devack :: Chunk pauseack :: rest) :
  fst (connect self w)
  = match subscriptions self with
    | [] => Ok tt
    | _ :: _ => Raise AttributeError
    end
  /\ sent (snd (connect self w))
     = (sent w ++ [COMMAND_LIST; COMMAND_DEV_CONNECT (device_id self);
                   COMMAND_PAUSE])%list
  /\ logged ERROR (snd (connect self w))
     = (logged ERROR w ++ connect_errors self listing devack pauseack)%list
  /\ inbox (snd (connect self w)) = rest
  /\ running (snd (connect self w)) = running w.
Proof.
  destruct (connect_ends self listing devack pauseack rest w Hinbox)
    as [Hend [Hsent [Hlogged [Hleft Hrunning]]]].
  repeat split; assumption.
Qed.

Lemma connect_completes_whatever_the_replies_witness :
  let w := fresh_world [Chunk "no such device"; Chunk "R device_connect ERR";
                        Chunk ""; Chunk "left"] in
  (fst (connect bare_client w) = Ok tt
   /\ sent (snd (connect bare_client w))
      = ["device_list" ++ crlf; "device_connect A01234" ++ crlf;
         "pause ON" ++ crlf]
   /\ logged ERROR (snd (connect bare_client w))
      = ["Device ID A01234 not in available devices.";
         "Could not subscribe to device A01234";
         "Could not pause stream."]
   /\ inbox (snd (connect bare_client w)) = [Chunk "left"]
   /\ running (snd (connect bare_client w)) = None)
  /\ (fst (connect example_client w) = Raise AttributeError
      /\ sent (snd (connect example_client w))
         = ["device_list" ++ crlf; "device_connect A01234" ++ crlf;
            "pause ON" ++ crlf]
      /\ inbox (snd (connect example_client w)) = [Chunk "left"]).
Proof.
  cbv zeta. split.
  - exact (connect_completes_whatever_the_replies
             bare_client "no such device" "R device_connect ERR" ""
             [Chunk "left"]
             (fresh_world [Chunk "no such device"; Chunk "R device_connect ERR";
                           Chunk ""; Chunk "left"])
             eq_refl).
  - destruct (connect_completes_whatever_the_replies
                example_client "no such device" "R device_connect ERR" ""
                [Chunk "left"]
                (fresh_world [Chunk "no such device"; Chunk "R device_connect ERR";
                              Chunk ""; Chunk "left"])
                eq_refl) as [Hend [Hsent [_ [Hleft _]]]].
    repeat split; assumption.
Defined.

(** X2.  A handshake leaves no error in the log exactly when the three
    answers are the awaited ones: the list of devices contains the device id,
    and the acknowledgements of the device connection and of the pause are,
    to the character, those of the constants. *)
Theorem connect_logs_no_error_iff_awaited
        (self : E4Client) (listing devack pauseack : string)
        (rest : list delivery) (w : world)
        (Hinbox : inbox w
                  = Chunk listing :: Chunk devack :: Chunk pauseack :: rest) :
  logged ERROR (snd (connect self w)) = logged ERROR w
  <-> (contains (device_id self) listing = true
       /\ devack = DEV_ACK_OK
       /\ pauseack = PAUSE_ON_ACK).
Proof.
  destruct (connect_ends self listing devack pauseack rest w Hinbox)
    as [_ [_ [Hlog _]]].
  rewrite Hlog. unfold connect_errors. split.
  - intros H. rewrite <- (app_nil_r (logged ERROR w)) in H at 2.
    apply app_inv_head in H.
    destruct (contains (device_id self) listing); [|discriminate].
    destruct (String.eqb devack DEV_ACK_OK) eqn:E1; [|discriminate].
    destruct (String.eqb pauseack PAUSE_ON_ACK) eqn:E2; [|discriminate].
    apply String.eqb_eq in E1, E2. now repeat split.
  - intros [H1 [H2 H3]]. subst devack pauseack.
    rewrite H1, !String.eqb_refl. cbn [app]. now rewrite app_nil_r.
Qed.

Lemma connect_logs_no_error_iff_awaited_witness :
  logged ERROR
    (snd (connect example_client
            (fresh_world [Chunk ("R device_list 1 | A01234 Empatica_E4" ++ lf);
                          Chunk DEV_ACK_OK; Chunk PAUSE_ON_ACK])))
  = []
  /\ logged ERROR
       (snd (connect example_client
               (fresh_world [Chunk ("R device_list 1 | A01234 Empatica_E4" ++ lf);
                             Chunk DEV_ACK_OK; Chunk ("R pause OFF" ++ lf)])))
     <> [].
Proof.
  split.
  - apply (proj2 (connect_logs_no_error_iff_awaited
                    example_client ("R device_list 1 | A01234 Empatica_E4" ++ lf)
                    DEV_ACK_OK PAUSE_ON_ACK []
                    (fresh_world [Chunk ("R device_list 1 | A01234 Empatica_E4" ++ lf);
                                  Chunk DEV_ACK_OK; Chunk PAUSE_ON_ACK])
                    eq_refl)).
    repeat split.
  - intros H.
    apply (proj1 (connect_logs_no_error_iff_awaited
                    example_client ("R device_list 1 | A01234 Empatica_E4" ++ lf)
                    DEV_ACK_OK ("R pause OFF" ++ lf) []
                    (fresh_world [Chunk ("R device_list 1 | A01234 Empatica_E4" ++ lf);
                                  Chunk DEV_ACK_OK; Chunk ("R pause OFF" ++ lf)])
                    eq_refl)) in H.
    destruct H as [_ [_ H]]. discriminate H.
Defined.

(* ================================================================== *)
(** * Handshakes that run dry *)
(* ================================================================== *)

Lemma pause_stream_dries (self : E4Client) (w : world) :
  inbox w = [] -> fst (_pause_stream self w) = Raise SocketTimeout.
Proof.
  intros H. destruct w as [tr i r]. cbn [inbox] in H. subst i.
  unfold _pause_stream. dries_by_running.
Qed.

Lemma connect_device_dries (self : E4Client) (w : world) :
  inbox w = [] \/ (exists listing, inbox w = [Chunk listing]) ->
  fst (_connect_device self w) = Raise SocketTimeout.
Proof.
  intros [H | [listing H]]; destruct w as [tr i r]; cbn [inbox] in H; subst i;
    unfold _connect_device; dries_by_running.
Qed.

(** [connect] on fewer texts than the three it reads. *)
Lemma connect_dries (self : E4Client) (texts : list string) (w : world) :
  (length texts < 3)%nat ->
  inbox w = map Chunk texts ->
  fst (connect self w) = Raise SocketTimeout.
Proof.
  intros Hlen Hinbox.
  unfold connect.
  pose proof (performs_logger_info self "Connecting to server..." w) as P1.
  rewrite (bind_performs _ _ _ _ _ _ P1).
  set (w1 := snd (logger_info self "Connecting to server..." w)) in *.
  assert (H1 : inbox w1 = map Chunk texts).
  { rewrite <- Hinbox. exact (proj1 (proj2 (proj2 (proj2 P1)))). }
  pose proof (performs_emit_silent (SockConnect (ip self) (port self)) w1 I) as P2.
  rewrite (bind_performs _ _ _ _ _ _ P2).
  set (w2 := snd (emit (SockConnect (ip self) (port self)) w1)) in *.
  assert (H2 : inbox w2 = map Chunk texts).
  { rewrite <- H1. exact (proj1 (proj2 (proj2 (proj2 P2)))). }
  destruct texts as [|listing [|devack texts]].
  - apply bind_raises, connect_device_dries. now left.
  - apply bind_raises, connect_device_dries. right. now exists listing.
  - cbn [map] in H2.
    pose proof (performs_connect_device self listing devack _ w2 H2) as P3.
    rewrite (bind_performs _ _ _ _ _ _ P3).
    set (w3 := snd (_connect_device self w2)) in *.
    assert (H3 : inbox w3 = map Chunk texts)
      by exact (proj1 (proj2 (proj2 (proj2 P3)))).
    pose proof (performs_logger_info self "Connected." w3) as P4.
    rewrite (bind_performs _ _ _ _ _ _ P4).
    set (w4 := snd (logger_info self "Connected." w3)) in *.
    assert (H4 : inbox w4 = map Chunk texts).
    { rewrite <- H3. exact (proj1 (proj2 (proj2 (proj2 P4)))). }
    destruct texts as [|pauseack replies]; [|cbn [length] in Hlen; lia].
    apply bind_raises. now apply pause_stream_dries.
Qed.

Lemma performs_reset_socket (self : E4Client) (w : world) :
  performs (reset_socket self) w [] [] (inbox w).
Proof.
  unfold reset_socket.
  eapply performs_seq with (c1 := []) (e1 := []);
    [apply performs_logger_info | intros w1 H1 | reflexivity | reflexivity].
  eapply performs_seq with (c1 := []) (e1 := []);
    [apply performs_emit_silent; exact I | intros w2 H2
     | reflexivity | reflexivity].
  eapply performs_seq with (c1 := []) (e1 := []);
    [apply performs_emit_silent; exact I | intros w3 H3
     | reflexivity | reflexivity].
  eapply performs_seq with (c1 := []) (e1 := []);
    [apply performs_emit_silent; exact I | intros w4 H4
     | reflexivity | reflexivity].
  rewrite <- H1, <- H2, <- H3, <- H4. apply performs_emit_silent. exact I.
Qed.

(** X3.  With fewer than the three texts [connect] reads and nothing
    after them, [connect] ends with the [socket.timeout] of the read that
    found nothing: the exception is not caught, neither by [connect] nor by
    [reset], which ends with it too. *)
Theorem connect_times_out_when_answers_lack
        (self : E4Client) (texts : list string) (w : world)
        (Hlen : (length texts < 3)%nat)
        (Hinbox : inbox w = map Chunk texts) :
  fst (connect self w) = Raise SocketTimeout
  /\ fst (reset self w) = Raise SocketTimeout.
Proof.
  split.
  - now apply connect_dries with (texts := texts).
  - unfold reset.
    pose proof (performs_reset_socket self w) as P.
    rewrite (bind_performs _ _ _ _ _ _ P).
    apply connect_dries with (texts := texts); [exact Hlen |].
    rewrite <- Hinbox. exact (proj1 (proj2 (proj2 (proj2 P)))).
Qed.

Lemma connect_times_out_when_answers_lack_witness :
  fst (connect example_client
         (fresh_world (map Chunk ["R device_list 1 | A01234 Empatica_E4" ++ lf;
                                  DEV_ACK_OK])))
  = Raise SocketTimeout.
Proof.
  refine (proj1 (connect_times_out_when_answers_lack
                   example_client
                   ["R device_list 1 | A01234 Empatica_E4" ++ lf; DEV_ACK_OK]
                   (fresh_world
                      (map Chunk ["R device_list 1 | A01234 Empatica_E4" ++ lf;
                                  DEV_ACK_OK]))
                   _ eq_refl)).
  cbn. lia.
Defined.

(** [reset] on the three texts its [connect] reads. *)
Lemma reset_ends (self : E4Client) (listing devack pauseack : string)
      (rest : list delivery) (w : world) :
  inbox w = Chunk listing :: Chunk devack :: Chunk pauseack :: rest ->
  ends (subscriptions_outcome self) (reset self) w
       (handshake_commands self)
       (connect_errors self listing devack pauseack) rest.
Proof.
  intros Hinbox. unfold reset.
  eapply ends_seq with (c1 := []) (e1 := []);
    [apply performs_reset_socket | intros w1 H1 | reflexivity | reflexivity].
  apply connect_ends. now rewrite H1.
Qed.

(** X4.  For a client without subscriptions [reconnect] reads the answers
    of two handshakes: given them, whatever they are, it returns after
    sending the three commands of [connect] twice over.  For a client with a
    subscription it ends in the first handshake, with the [AttributeError] of
    [subscribe]: the three commands are sent once and the answers of a second
    handshake are left unread. *)
Theorem reconnect_performs_two_handshakes
        (self : E4Client) (listing devack pauseack : string)
        (listing' devack' pauseack' : string) (rest : list delivery)
        (w : world)
        (Hinbox : inbox w
                  = Chunk listing :: Chunk devack :: Chunk pauseack
                    :: Chunk listing' :: Chunk devack' :: Chunk pauseack'
                    :: rest) :
  match subscriptions self with
  | [] =>
      fst (reconnect self w) = Ok tt
      /\ sent (snd (reconnect self w))
         = (sent w ++ handshake_commands self ++ handshake_commands self)%list
      /\ logged ERROR (snd (reconnect self w))
         = (logged ERROR w ++ connect_errors self listing devack pauseack
            ++ connect_errors self listing' devack' pauseack')%list
      /\ inbox (snd (reconnect self w)) = rest
  | _ :: _ =>
      fst (reconnect self w) = Raise AttributeError
      /\ sent (snd (reconnect self w)) = (sent w ++ handshake_commands self)%list
      /\ logged ERROR (snd (reconnect self w))
         = (logged ERROR w ++ connect_errors self listing devack pauseack)%list
      /\ inbox (snd (reconnect self w))
         = Chunk listing' :: Chunk devack' :: Chunk pauseack' :: rest
  end.
Proof.
  pose proof (reset_ends self listing devack pauseack _ w Hinbox) as Hreset.
  pose proof (fun w1 => connect_ends self listing' devack' pauseack' rest w1)
    as Hconnect.
  unfold subscriptions_outcome in *.
  destruct (subscriptions self) as [|sub subs].
  - assert (P : ends (Ok tt) (reconnect self) w
                     (handshake_commands self ++ handshake_commands self)
                     (connect_errors self listing devack pauseack
                      ++ connect_errors self listing' devack' pauseack')
                     rest).
    { unfold reconnect.
      eapply ends_seq;
        [exact Hreset | exact Hconnect | reflexivity | reflexivity]. }
    destruct P as [Hend [Hsent [Hlogged [Hleft _]]]].
    repeat split; assumption.
  - pose proof (ends_raise_bind _ _ (fun _ => connect self) _ _ _ _ Hreset)
      as [Hend [Hsent [Hlogged [Hleft _]]]].
    unfold reconnect. repeat split; assumption.
Qed.

Lemma reconnect_performs_two_handshakes_witness :
  let w := fresh_world [Chunk ("R device_list 1 | A01234 Empatica_E4" ++ lf);
                        Chunk DEV_ACK_OK; Chunk PAUSE_ON_ACK;
                        Chunk ("R device_list 1 | A01234 Empatica_E4" ++ lf);
                        Chunk DEV_ACK_OK; Chunk PAUSE_ON_ACK;
                        Silence] in
  (fst (reconnect bare_client w) = Ok tt
   /\ inbox (snd (reconnect bare_client w)) = [Silence])
  /\ (fst (reconnect example_client w) = Raise AttributeError
      /\ inbox (snd (reconnect example_client w))
         = [Chunk ("R device_list 1 | A01234 Empatica_E4" ++ lf);
            Chunk DEV_ACK_OK; Chunk PAUSE_ON_ACK; Silence]).
Proof.
  cbv zeta. split.
  - destruct (reconnect_performs_two_handshakes
                bare_client
                ("R device_list 1 | A01234 Empatica_E4" ++ lf)
                DEV_ACK_OK PAUSE_ON_ACK
                ("R device_list 1 | A01234 Empatica_E4" ++ lf)
                DEV_ACK_OK PAUSE_ON_ACK [Silence]
                (fresh_world [Chunk ("R device_list 1 | A01234 Empatica_E4" ++ lf);
                              Chunk DEV_ACK_OK; Chunk PAUSE_ON_ACK;
                              Chunk ("R device_list 1 | A01234 Empatica_E4" ++ lf);
                              Chunk DEV_ACK_OK; Chunk PAUSE_ON_ACK;
                              Silence])
                eq_refl) as [Hend [_ [_ Hleft]]].
    split; assumption.
  - destruct (reconnect_performs_two_handshakes
                example_client
                ("R device_list 1 | A01234 Empatica_E4" ++ lf)
                DEV_ACK_OK PAUSE_ON_ACK
                ("R device_list 1 | A01234 Empatica_E4" ++ lf)
                DEV_ACK_OK PAUSE_ON_ACK [Silence]
                (fresh_world [Chunk ("R device_list 1 | A01234 Empatica_E4" ++ lf);
                              Chunk DEV_ACK_OK; Chunk PAUSE_ON_ACK;
                              Chunk ("R device_list 1 | A01234 Empatica_E4" ++ lf);
                              Chunk DEV_ACK_OK; Chunk PAUSE_ON_ACK;
                              Silence])
                eq_refl) as [Hend [_ [_ Hleft]]].
    split; assumption.
Defined.

(** X5.  For a client without subscriptions, the answers of one handshake
    are not enough for [reconnect]: with fewer than six texts and nothing
    after them it ends with [socket.timeout], after a first handshake that
    went through when there were three at least.  With fewer than three
    texts it ends so for every client. *)
Theorem reconnect_times_out_on_one_handshake
        (self : E4Client) (texts : list string) (w : world)
        (Hlen : (length texts < 3)%nat
                \/ (subscriptions self = [] /\ (length texts < 6)%nat))
        (Hinbox : inbox w = map Chunk texts) :
  fst (reconnect self w) = Raise SocketTimeout.
Proof.
  unfold reconnect.
  assert (Hshort : (length texts < 3)%nat ->
                   fst (bind (reset self) (fun _ => connect self) w)
                   = Raise SocketTimeout).
  { intros Hlt. apply bind_raises. unfold reset.
    pose proof (performs_reset_socket self w) as P.
    rewrite (bind_performs _ _ _ _ _ _ P).
    apply connect_dries with (texts := texts); [exact Hlt |].
    rewrite <- Hinbox. exact (proj1 (proj2 (proj2 (proj2 P)))). }
  destruct Hlen as [Hlt | [Hnone Hlt]]; [now apply Hshort |].
  destruct (Nat.lt_ge_cases (length texts) 3) as [Hlt3 | Hge3];
    [now apply Hshort |].
  destruct texts as [|listing [|devack [|pauseack more]]];
    try (cbn [length] in Hge3; lia).
  cbn [map] in Hinbox.
  pose proof (reset_ends self listing devack pauseack _ w Hinbox) as P.
  unfold subscriptions_outcome in P. rewrite Hnone in P.
  rewrite (bind_performs _ _ _ _ _ _ P).
  apply connect_dries with (texts := more).
  - cbn [length] in Hlt. lia.
  - exact (proj1 (proj2 (proj2 (proj2 P)))).
Qed.

Lemma reconnect_times_out_on_one_handshake_witness :
  fst (reconnect bare_client
         (fresh_world (map Chunk ["R device_list 1 | A01234 Empatica_E4" ++ lf;
                                  DEV_ACK_OK; PAUSE_ON_ACK;
                                  "R device_list 1 | A01234 Empatica_E4" ++ lf])))
  = Raise SocketTimeout.
Proof.
  apply (reconnect_times_out_on_one_handshake
           bare_client
           ["R device_list 1 | A01234 Empatica_E4" ++ lf;
            DEV_ACK_OK; PAUSE_ON_ACK;
            "R device_list 1 | A01234 Empatica_E4" ++ lf]).
  - right. split; [reflexivity | cbn; lia].
  - reflexivity.
Defined.

(* ================================================================== *)
(** * The splitter, there and back *)
(* ================================================================== *)

Lemma join_cons_char (sep : string) (c : ascii) (field : string)
      (fields : list string) :
  join sep (String c field :: fields) = String c (join sep (field :: fields)).
Proof. destruct fields; reflexivity. Qed.

Lemma contains_char_cons (sep c : ascii) (s : string) :
  contains (String sep "") (String c s) =
  Ascii.eqb sep c || contains (String sep "") s.
Proof.
  cbn [contains starts_with]. destruct s; now rewrite andb_true_r.
Qed.

Lemma split_on_fields_free (sep : ascii) (s : string) :
  Forall (fun field => contains (String sep "") field = false) (split_on sep s).
Proof.
  induction s as [|c s IH]; cbn [split_on].
  - now repeat constructor.
  - destruct (Ascii.eqb c sep) eqn:E.
    + constructor; [reflexivity | exact IH].
    + pose proof (split_on_not_nil sep s) as Hne.
      destruct (split_on sep s) as [|f fs]; [contradiction |].
      inversion IH as [|? ? Hf Hfs]; subst. constructor; [|exact Hfs].
      rewrite contains_char_cons, Ascii.eqb_sym, E. exact Hf.
Qed.

Lemma no_lf_contains (s : string) : no_lf s = negb (contains lf s).
Proof.
  unfold lf. induction s as [|c s IH]; [reflexivity |].
  rewrite contains_char_cons. cbn [no_lf]. rewrite IH, Ascii.eqb_sym.
  now destruct (Ascii.eqb LF c).
Qed.

Lemma split_on_no_sep (s : string) :
  no_lf s = true -> split_on LF s = [s].
Proof.
  induction s as [|c s IH]; [reflexivity |].
  cbn [no_lf split_on]. intros H. apply andb_true_iff in H as [Hc Hs].
  apply negb_true_iff in Hc. rewrite Hc, (IH Hs). reflexivity.
Qed.

(** X6.  Splitting loses nothing: the lines of a text, joined again with
    line feeds, are the text; and no line has a line feed in it. *)
Theorem split_response_join_is_the_text (response : string) :
  join lf (_split_response response) = response
  /\ Forall (fun line => no_lf line = true) (_split_response response).
Proof.
  split.
  - unfold _split_response. induction response as [|c s IH]; [reflexivity |].
    cbn [split_on]. destruct (Ascii.eqb c LF) eqn:E.
    + apply Ascii.eqb_eq in E. subst c.
      pose proof (split_on_not_nil LF s) as Hne.
      destruct (split_on LF s) as [|f fs]; [contradiction |].
      change (join lf ("" :: f :: fs)) with (String LF (join lf (f :: fs))).
      now rewrite IH.
    + pose proof (split_on_not_nil LF s) as Hne.
      destruct (split_on LF s) as [|f fs]; [contradiction |].
      now rewrite join_cons_char, IH.
  - unfold _split_response.
    pose proof (split_on_fields_free LF response) as H.
    apply Forall_impl with (2 := H). intros line Hline.
    rewrite no_lf_contains. fold lf in Hline. now rewrite Hline.
Qed.

(** X7.  Lines without line feeds, joined with line feeds, are split back
    into themselves, the empty ones included. *)
Theorem split_response_of_joined_lines (lines : list string)
        (Hsome : lines <> [])
        (Hfree : Forall (fun line => no_lf line = true) lines) :
  _split_response (join lf lines) = lines.
Proof.
  unfold _split_response.
  induction Hfree as [|line lines Hline Hlines IH]; [contradiction |].
  destruct lines as [|line' lines].
  - cbn [join]. now apply split_on_no_sep.
  - change (join lf (line :: line' :: lines))
      with (line ++ String LF (join lf (line' :: lines))).
    rewrite split_on_app_sep, (split_on_no_sep line Hline).
    rewrite IH by discriminate. reflexivity.
Qed.

Lemma split_response_of_joined_lines_witness :
  _split_response (join lf ["R pause ON"; ""; "E4_Gsr 1,0 0,5"; ""])
  = ["R pause ON"; ""; "E4_Gsr 1,0 0,5"; ""].
Proof.
  apply split_response_of_joined_lines.
  - discriminate.
  - repeat constructor.
Defined.

(* ================================================================== *)
(** * Tokens and white space *)
(* ================================================================== *)

Lemma split_ws_tokens (s : string) :
  Forall (fun t => is_token t = true) (split_ws s).
Proof.
  induction s as [|c s IH]; [constructor |].
  destruct (is_space c) eqn:Hc.
  - cbn [split_ws]. now rewrite Hc.
  - rewrite split_ws_step by exact Hc.
    assert (Hone : is_token (String c "") = true).
    { unfold is_token, nonempty. cbn. now rewrite Hc. }
    destruct s as [|c' s']; [now constructor |].
    destruct (is_space c') eqn:Hc'; [now constructor |].
    destruct (split_ws (String c' s')) as [|tok toks]; [now constructor |].
    inversion IH as [|? ? Htok Htoks]; subst.
    constructor; [|exact Htoks].
    unfold is_token, nonempty in *. cbn. rewrite Hc. cbn.
    now apply andb_true_iff in Htok as [_ ->].
Qed.

Lemma split_ws_only_space (s : string) :
  only_space s = true -> split_ws s = [].
Proof.
  induction s as [|c s IH]; [reflexivity |].
  cbn [only_space split_ws]. intros H. apply andb_true_iff in H as [Hc Hs].
  now rewrite Hc, IH.
Qed.

Lemma split_ws_lead (pad s : string) :
  only_space pad = true -> split_ws (pad ++ s) = split_ws s.
Proof.
  induction pad as [|c pad IH]; [reflexivity |].
  cbn [only_space append split_ws]. intros H.
  apply andb_true_iff in H as [Hc Hpad]. now rewrite Hc, IH.
Qed.

Lemma split_ws_trail (s pad : string) :
  only_space pad = true -> split_ws (s ++ pad) = split_ws s.
Proof.
  intros Hpad. induction s as [|c s IH].
  - now apply split_ws_only_space.
  - cbn [append]. destruct (is_space c) eqn:Hc.
    + cbn [split_ws]. now rewrite Hc.
    + rewrite !split_ws_step by exact Hc.
      destruct s as [|c' s'].
      * cbn [append]. destruct pad as [|x pad']; [reflexivity |].
        cbn [only_space] in Hpad. apply andb_true_iff in Hpad as [Hx Hpad'].
        rewrite Hx. cbn [split_ws]. rewrite Hx.
        now rewrite (split_ws_only_space pad' Hpad').
      * cbn [append] in *. now rewrite IH.
Qed.

(* ================================================================== *)
(** * What the decoder reads and what it leaves *)
(* ================================================================== *)

Section DecoderReach.

Variable Float : Type.
Variable float : string -> option Float.

Lemma number_at_tail_firstn (stream : string) (rest : list string) (i k : nat) :
  (i < k)%nat ->
  number_at float (stream :: rest) (S i) =
  number_at float (stream :: firstn k rest) (S i).
Proof.
  intros Hik. rewrite !number_at_tail, !nth_error_map, nth_error_firstn.
  apply Nat.ltb_lt in Hik. now rewrite Hik.
Qed.

(** X8.  [_parse_packet] reads the stream code, the timestamp and as many
    values as the stream has, three for [E4_Acc] and one otherwise; what
    stands on the line after them is never looked at, be it a number or
    not. *)
Theorem parse_packet_ignores_what_follows
        (packet packet' stream : string) (rest rest' : list string)
        (Htokens : split_ws packet = stream :: rest)
        (Htokens' : split_ws packet' = stream :: rest')
        (Hsame : firstn (if String.eqb stream "E4_Acc" then 4 else 2) rest
                 = firstn (if String.eqb stream "E4_Acc" then 4 else 2) rest') :
  _parse_packet float packet = _parse_packet float packet'.
Proof.
  rewrite (parse_packet_tokens _ _ _ _ _ Htokens),
          (parse_packet_tokens _ _ _ _ _ Htokens').
  destruct (String.eqb stream "E4_Acc").
  - rewrite (number_at_tail_firstn stream rest 0 4),
            (number_at_tail_firstn stream rest 1 4),
            (number_at_tail_firstn stream rest 2 4),
            (number_at_tail_firstn stream rest 3 4) by lia.
    rewrite (number_at_tail_firstn stream rest' 0 4),
            (number_at_tail_firstn stream rest' 1 4),
            (number_at_tail_firstn stream rest' 2 4),
            (number_at_tail_firstn stream rest' 3 4) by lia.
    now rewrite Hsame.
  - rewrite (number_at_tail_firstn stream rest 0 2),
            (number_at_tail_firstn stream rest 1 2) by lia.
    rewrite (number_at_tail_firstn stream rest' 0 2),
            (number_at_tail_firstn stream rest' 1 2) by lia.
    now rewrite Hsame.
Qed.

(** X9.  A line made of white space only, such as the carriage return left
    by an empty line that ended with CR LF, passes [_is_data_packet], and
    [_parse_packet] fails on it with the [IndexError] of [tokens[0]]. *)
Theorem blank_line_is_data_and_fails
        (packet : string)
        (Hsome : packet <> "")
        (Hblank : only_space packet = true) :
  _is_data_packet packet = true
  /\ _parse_packet float packet = Raise IndexError
  /\ forall before later,
       parse_data_packets float before = Ok [] ->
       parse_data_packets float (before ++ packet :: later) = Raise IndexError.
Proof.
  assert (Hdata : _is_data_packet packet = true).
  { destruct packet as [|c s]; [contradiction |].
    cbn [only_space] in Hblank. apply andb_true_iff in Hblank as [Hc _].
    unfold _is_data_packet. cbn [String.eqb is_ack_packet].
    destruct (Ascii.eqb c "R") eqn:E; [|reflexivity].
    apply Ascii.eqb_eq in E. subst c. discriminate. }
  assert (Hfail : _parse_packet float packet = Raise IndexError).
  { unfold _parse_packet. now rewrite (split_ws_only_space _ Hblank). }
  split; [exact Hdata | split; [exact Hfail |]].
  intros before later. induction before as [|p ps IH]; intros Hbefore.
  - cbn [app parse_data_packets]. now rewrite Hdata, Hfail.
  - cbn [app parse_data_packets] in *. destruct (_is_data_packet p).
    + destruct (_parse_packet float p) as [s0| |]; cbn [bind_result] in *;
        try discriminate.
      destruct (parse_data_packets float ps) as [ss| |]; cbn [bind_result] in *;
        discriminate.
    + now apply IH.
Qed.

(** X10.  White space around a line does not change what [_parse_packet]
    returns: a line that still has its carriage return, or is indented,
    decodes as the bare line does. *)
Theorem parse_packet_ignores_surrounding_space
        (lead packet trail : string)
        (Hlead : only_space lead = true)
        (Htrail : only_space trail = true) :
  _parse_packet float (lead ++ packet ++ trail) = _parse_packet float packet.
Proof.
  unfold _parse_packet.
  now rewrite (split_ws_lead _ _ Hlead), (split_ws_trail _ _ Htrail).
Qed.

Lemma parse_data_packets_app (l1 l2 : list string) :
  parse_data_packets float (l1 ++ l2) =
  (a <~ parse_data_packets float l1 ;;
   b <~ parse_data_packets float l2 ;;
   Ok (a ++ b)%list)%result.
Proof.
  induction l1 as [|p ps IH]; cbn [app parse_data_packets bind_result].
  - now destruct (parse_data_packets float l2).
  - destruct (_is_data_packet p); [|exact IH].
    destruct (_parse_packet float p) as [s0|e|]; cbn [bind_result];
      [|reflexivity|reflexivity].
    rewrite IH.
    destruct (parse_data_packets float ps) as [ss|e|]; cbn [bind_result];
      [|reflexivity|reflexivity].
    now destruct (parse_data_packets float l2).
Qed.

(** A call of [get_data] on a text received. *)
Lemma get_data_run (self : E4Client) (response : string)
      (rest : list delivery) (w : world) :
  inbox w = Chunk response :: rest ->
  exists w1,
    get_data float self w
    = (parse_data_packets float (_split_response response), w1)
    /\ inbox w1 = rest.
Proof.
  intros Hinbox. destruct w as [tr i r]. cbn [inbox] in Hinbox. subst i.
  unfold get_data.
  cbv beta delta [bind ret lift when log emit recv] iota.
  cbn [trace inbox running fst snd].
  destruct (contains DISCONNECT_MESSAGE response);
    cbn [trace inbox running fst snd];
    destruct (parse_data_packets float (_split_response response));
    eexists; split; reflexivity.
Qed.

(** X11.  [get_data] returns all the samples of a buffer or none: when the
    lines before a data line decode and that line makes [_parse_packet]
    raise, [get_data] ends with that exception, whatever was decoded before
    and whatever follows. *)
Theorem get_data_fails_on_first_bad_line
        (self : E4Client) (response : string) (rest : list delivery) (w : world)
        (good later : list string) (bad : string)
        (samples : list (sample Float)) (e : exn)
        (Hinbox : inbox w = Chunk response :: rest)
        (Hlines : _split_response response = (good ++ bad :: later)%list)
        (Hgood : parse_data_packets float good = Ok samples)
        (Hdata : _is_data_packet bad = true)
        (Hbad : _parse_packet float bad = Raise e) :
  fst (get_data float self w) = Raise e.
Proof.
  rewrite (get_data_result Float float self response rest w Hinbox), Hlines.
  rewrite parse_data_packets_app, Hgood. cbn [bind_result parse_data_packets].
  now rewrite Hdata, Hbad.
Qed.

(** X12.  When the comprehension of [get_data] returns, it returns one
    sample for each line that passed [_is_data_packet], in the order of the
    lines, and the stream of each sample is the first token of its line. *)
Theorem samples_follow_the_data_lines
        (packets : list string) (samples : list (sample Float))
        (Hok : parse_data_packets float packets = Ok samples) :
  map (fun s => Some (fst (fst s))) samples
  = map stream_code (filter _is_data_packet packets)
  /\ length samples = length (filter _is_data_packet packets).
Proof.
  assert (Hmap : map (fun s : sample Float => Some (fst (fst s))) samples
                 = map stream_code (filter _is_data_packet packets)).
  { revert samples Hok. induction packets as [|p ps IH]; intros samples Hok.
    - cbn in Hok. injection Hok as <-. reflexivity.
    - cbn [parse_data_packets filter] in *. destruct (_is_data_packet p).
      + destruct (_parse_packet float p) as [s0| |] eqn:Hp; cbn [bind_result] in Hok;
          try discriminate.
        destruct (parse_data_packets float ps) as [ss| |]; cbn [bind_result] in Hok;
          try discriminate.
        injection Hok as <-. cbn [map]. rewrite (IH ss eq_refl). f_equal.
        unfold _parse_packet, stream_code in *.
        destruct (split_ws p) as [|stream rest]; [discriminate |].
        cbn [index nth_error bind_result hd_error] in *.
        destruct (number_at float (stream :: rest) 1); cbn [bind_result] in Hp;
          try discriminate.
        match type of Hp with
        | (data <~ ?d ;; _)%result = _ => destruct d; cbn [bind_result] in Hp;
                                          try discriminate
        end.
        now injection Hp as <-.
      + now apply IH. }
  split; [exact Hmap |].
  apply (f_equal (@length _)) in Hmap. now rewrite !length_map in Hmap.
Qed.

(** X13.  Two reads compose when the first ends a line: if the text of the
    first [recv] ends with a line feed, the samples of two calls of
    [get_data], put end to end, are those of one call on the two texts
    received as one; an exception of either call is that of the one call. *)
Theorem get_data_twice_is_get_data_once
        (self : E4Client) (chunk next : string) (rest : list delivery)
        (w w' : world)
        (Hend : ends_with_char LF chunk = true)
        (Hinbox : inbox w = Chunk chunk :: Chunk next :: rest)
        (Hinbox' : inbox w' = Chunk (chunk ++ next) :: rest) :
  fst (bind (get_data float self) (fun a =>
       bind (get_data float self) (fun b => ret (a ++ b)%list)) w)
  = fst (get_data float self w').
Proof.
  rewrite (get_data_result Float float self _ rest w' Hinbox').
  assert (Hwhole : parse_data_packets float (_split_response (chunk ++ next)) =
                   (a <~ parse_data_packets float (_split_response chunk) ;;
                    b <~ parse_data_packets float (_split_response next) ;;
                    Ok (a ++ b)%list)%result).
  { apply ends_with_char_spec in Hend as [body ->]. unfold _split_response.
    rewrite append_assoc. cbn [append].
    rewrite split_on_app_sep, split_on_sep_end.
    rewrite !parse_data_packets_app. cbn [parse_data_packets].
    rewrite is_data_packet_spec. cbn [nonempty String.eqb negb andb].
    destruct (parse_data_packets float (split_on LF body)) as [a|e|];
      cbn [bind_result]; [|reflexivity|reflexivity].
    now rewrite app_nil_r. }
  rewrite Hwhole.
  destruct (get_data_run self chunk (Chunk next :: rest) w Hinbox)
    as [w1 [Hrun1 Hw1]].
  unfold bind at 1. rewrite Hrun1.
  destruct (parse_data_packets float (_split_response chunk)) as [a|e|];
    cbn [bind_result fst]; [|reflexivity|reflexivity].
  destruct (get_data_run self next rest w1 Hw1) as [w2 [Hrun2 Hw2]].
  unfold bind. rewrite Hrun2.
  now destruct (parse_data_packets float (_split_response next)).
Qed.

(** X15.  The stream of a decoded sample is the first token of its line:
    it is never empty and has no white space in it. *)
Theorem decoded_stream_is_first_token
        (packet stream : string) (timestamp : Float) (data : payload Float)
        (Hok : _parse_packet float packet = Ok (stream, timestamp, data)) :
  stream_code packet = Some stream /\ is_token stream = true.
Proof.
  pose proof (split_ws_tokens packet) as Htokens.
  unfold _parse_packet, stream_code in *.
  destruct (split_ws packet) as [|first rest]; [discriminate |].
  cbn [index nth_error bind_result hd_error] in *.
  destruct (number_at float (first :: rest) 1); cbn [bind_result] in Hok;
    try discriminate.
  match type of Hok with
  | (data <~ ?d ;; _)%result = _ => destruct d; cbn [bind_result] in Hok;
                                    try discriminate
  end.
  injection Hok as <- _ _.
  split; [reflexivity | now inversion Htokens].
Qed.

End DecoderReach.

Lemma parse_packet_ignores_what_follows_witness :
  _parse_packet Decimal.float "E4_Gsr 10,5 0,25 and the rest"
  = _parse_packet Decimal.float "E4_Gsr 10,5 0,25".
Proof.
  apply (parse_packet_ignores_what_follows
           Q Decimal.float
           "E4_Gsr 10,5 0,25 and the rest" "E4_Gsr 10,5 0,25" "E4_Gsr"
           ["10,5"; "0,25"; "and"; "the"; "rest"] ["10,5"; "0,25"]);
    reflexivity.
Defined.

Lemma blank_line_is_data_and_fails_witness :
  _is_data_packet (String CR "") = true
  /\ parse_data_packets Decimal.float
       (_split_response ("R pause ON" ++ crlf ++ crlf ++ "E4_Gsr 10,5 0,25" ++ crlf))
     = Raise IndexError.
Proof.
  split.
  - apply (blank_line_is_data_and_fails Q Decimal.float (String CR ""));
      [discriminate | reflexivity].
  - apply (proj2 (proj2 (blank_line_is_data_and_fails
                           Q Decimal.float (String CR "")
                           ltac:(discriminate) eq_refl))
             ["R pause ON" ++ String CR ""]
             ["E4_Gsr 10,5 0,25" ++ String CR ""; ""]).
    reflexivity.
Defined.

Lemma parse_packet_ignores_surrounding_space_witness :
  _parse_packet Decimal.float ("  " ++ "E4_Gsr 10,5 0,25" ++ String CR "")
  = Ok ("E4_Gsr", Qmake 21 2, Scalar (Qmake 1 4)).
Proof.
  rewrite (parse_packet_ignores_surrounding_space
             Q Decimal.float "  " "E4_Gsr 10,5 0,25" (String CR "")
             eq_refl eq_refl).
  reflexivity.
Defined.

Lemma get_data_fails_on_first_bad_line_witness :
  fst (get_data Decimal.float example_client
         (fresh_world [Chunk ("E4_Gsr 10,5 0,25" ++ lf ++ "E4_Tag 12,50" ++ lf
                              ++ "E4_Gsr 11,5 0,25" ++ lf)]))
  = Raise IndexError.
Proof.
  apply (get_data_fails_on_first_bad_line
           Q Decimal.float example_client
           ("E4_Gsr 10,5 0,25" ++ lf ++ "E4_Tag 12,50" ++ lf
            ++ "E4_Gsr 11,5 0,25" ++ lf)
           []
           (fresh_world [Chunk ("E4_Gsr 10,5 0,25" ++ lf ++ "E4_Tag 12,50" ++ lf
                                ++ "E4_Gsr 11,5 0,25" ++ lf)])
           ["E4_Gsr 10,5 0,25"] ["E4_Gsr 11,5 0,25"; ""] "E4_Tag 12,50"
           [("E4_Gsr", Qmake 21 2, Scalar (Qmake 1 4))] IndexError);
    reflexivity.
Defined.

Lemma samples_follow_the_data_lines_witness :
  map stream_code
      (filter _is_data_packet ["R pause ON"; "E4_Gsr 10,5 0,25"; "";
                               "E4_Acc 11,5 1 2 3"])
  = [Some "E4_Gsr"; Some "E4_Acc"].
Proof.
  rewrite <- (proj1 (samples_follow_the_data_lines
                       Q Decimal.float
                       ["R pause ON"; "E4_Gsr 10,5 0,25"; ""; "E4_Acc 11,5 1 2 3"]
                       [("E4_Gsr", Qmake 21 2, Scalar (Qmake 1 4));
                        ("E4_Acc", Qmake 23 2,
                         Vec3 (Qmake 1 1) (Qmake 2 1) (Qmake 3 1))]
                       eq_refl)).
  reflexivity.
Defined.

Lemma get_data_twice_is_get_data_once_witness :
  fst (bind (get_data Decimal.float example_client) (fun a =>
       bind (get_data Decimal.float example_client) (fun b => ret (a ++ b)%list))
         (fresh_world [Chunk ("E4_Gsr 10,5 0,25" ++ lf);
                       Chunk ("E4_Gsr 11,5 0,5" ++ lf)]))
  = Ok [("E4_Gsr", Qmake 21 2, Scalar (Qmake 1 4));
        ("E4_Gsr", Qmake 23 2, Scalar (Qmake 1 2))].
Proof.
  rewrite (get_data_twice_is_get_data_once
             Q Decimal.float example_client
             ("E4_Gsr 10,5 0,25" ++ lf) ("E4_Gsr 11,5 0,5" ++ lf) []
             (fresh_world [Chunk ("E4_Gsr 10,5 0,25" ++ lf);
                           Chunk ("E4_Gsr 11,5 0,5" ++ lf)])
             (fresh_world [Chunk (("E4_Gsr 10,5 0,25" ++ lf)
                                  ++ "E4_Gsr 11,5 0,5" ++ lf)])
             eq_refl eq_refl eq_refl).
  reflexivity.
Defined.

Lemma decoded_stream_is_first_token_witness :
  stream_code "  E4_Temperature 10,5 31,75" = Some "E4_Temperature"
  /\ is_token "E4_Temperature" = true.
Proof.
  exact (decoded_stream_is_first_token
           Q Decimal.float "  E4_Temperature 10,5 31,75" "E4_Temperature"
           (Qmake 21 2) (Scalar (Qmake 127 4)) eq_refl).
Defined.

(* ================================================================== *)
(** * Acknowledgements among the data *)
(* ================================================================== *)

Lemma no_lf_app (a b : string) : no_lf (a ++ b) = no_lf a && no_lf b.
Proof.
  induction a as [|c a IH]; [reflexivity |].
  cbn [append no_lf]. now rewrite IH, andb_assoc.
Qed.

Lemma parse_data_packets_none (Float : Type) (float : string -> option Float)
      (packets : list string) :
  filter _is_data_packet packets = [] ->
  parse_data_packets float packets = Ok [].
Proof.
  induction packets as [|p ps IH]; [reflexivity |].
  cbn [filter parse_data_packets]. destruct (_is_data_packet p);
    [discriminate | exact IH].
Qed.

(** A text made of one line that starts with [R], ended by a line feed, has
    no data line. *)
Lemma data_lines_of_ack (body : string) :
  no_lf body = true ->
  data_lines (String "R" body ++ lf) = [].
Proof.
  intros Hbody. unfold data_lines, _split_response, lf.
  rewrite split_on_sep_end, split_on_no_sep by exact Hbody.
  reflexivity.
Qed.

(** X14.  The awaited acknowledgements carry no sample: when a call of
    [get_data] receives the acknowledgement of a subscription (for a code
    without a line feed), of the device connection or of a pause, it returns
    the empty list and raises nothing. *)
Theorem get_data_on_an_acknowledgement
        (Float : Type) (float : string -> option Float)
        (self : E4Client) (subscription ack : string)
        (rest : list delivery) (w : world)
        (Hcode : no_lf subscription = true)
        (Hack : In ack [msg.RECV.SUB_OK_L subscription; DEV_ACK_OK;
                        PAUSE_ON_ACK; PAUSE_OFF_ACK])
        (Hinbox : inbox w = Chunk ack :: rest) :
  fst (get_data float self w) = Ok [] /\ data_lines ack = [].
Proof.
  assert (Hnone : data_lines ack = []).
  { destruct Hack as [<- | [<- | [<- | [<- | []]]]]; try reflexivity.
    unfold msg.RECV.SUB_OK_L.
    change ("R device_subscribe " ++ subscription ++ " OK" ++ lf)
      with (String "R" (" device_subscribe " ++ subscription ++ " OK" ++ lf)).
    replace (" device_subscribe " ++ subscription ++ " OK" ++ lf)
      with ((" device_subscribe " ++ subscription ++ " OK") ++ lf)
      by now rewrite !append_assoc.
    change (String "R" ((" device_subscribe " ++ subscription ++ " OK") ++ lf))
      with (String "R" (" device_subscribe " ++ subscription ++ " OK") ++ lf).
    apply data_lines_of_ack.
    rewrite !no_lf_app, Hcode. reflexivity. }
  split; [|exact Hnone].
  rewrite (get_data_result Float float self ack rest w Hinbox).
  now apply parse_data_packets_none.
Qed.

Lemma get_data_on_an_acknowledgement_witness :
  fst (get_data Decimal.float example_client
         (fresh_world [Chunk (SUB_ACK_OK "acc")]))
  = Ok [].
Proof.
  apply (get_data_on_an_acknowledgement
           Q Decimal.float example_client "acc" (SUB_ACK_OK "acc") []
           (fresh_world [Chunk (SUB_ACK_OK "acc")])).
  - reflexivity.
  - left. reflexivity.
  - reflexivity.
Defined.

(* ================================================================== *)
(** * A wait without end, and the running flag *)
(* ================================================================== *)

Section Waiting.

Variable Float : Type.
Variable float : string -> option Float.
Variable self : E4Client.

(** A turn of the loop when nothing is left to receive. *)
Lemma poll_turn_dry (w : world) :
  inbox w = [] ->
  exists w', poll_turn float self w = (Ok None, w') /\ inbox w' = [].
Proof.
  intros H. destruct w as [tr i r]. cbn [inbox] in H. subst i.
  eexists. split; reflexivity.
Qed.

Lemma poll_loop_never_leaves (turns : nat) :
  forall w, Forall (without "E4_Tag") (inbox w) ->
  fst (poll_loop float self turns w) = Unfinished.
Proof.
  induction turns as [|turns IH]; intros w Hquiet; [reflexivity |].
  cbn [poll_loop].
  assert (Hturn : exists w', poll_turn float self w = (Ok None, w')
                             /\ Forall (without "E4_Tag") (inbox w')).
  { destruct (inbox w) as [|d rest] eqn:Hw.
    - destruct (poll_turn_dry w Hw) as [w' [Hrun Hw']].
      exists w'. split; [exact Hrun |]. rewrite Hw'. constructor.
    - inversion Hquiet as [|? ? Hd Hrest]; subst.
      destruct d as [text|].
      + destruct (poll_turn_quiet Float float self w text rest Hw Hd)
          as [w' [Hrun Hw']].
        exists w'. split; [exact Hrun | now rewrite Hw'].
      + destruct (poll_turn_silence Float float self w rest Hw)
          as [w' [Hrun Hw']].
        exists w'. split; [exact Hrun | now rewrite Hw']. }
  destruct Hturn as [w' [Hrun Hw']].
  rewrite (bind_ok _ _ _ _ _ Hrun). now apply IH.
Qed.

(** X16.  [poll_for_tag] returns on a tag only.  As long as no line
    received contains [E4_Tag], and once nothing is received any more, every
    turn of its loop ends in another turn: no number of turns brings a result
    or an exception. *)
Theorem poll_for_tag_never_leaves_without_tag
        (turns : nat) (w : world)
        (Hquiet : Forall (without "E4_Tag") (inbox w)) :
  fst (poll_for_tag float self turns w) = Unfinished.
Proof.
  unfold poll_for_tag.
  rewrite (bind_ok _ _ _ _ _ (log_after _ _ _)).
  apply poll_loop_never_leaves. exact Hquiet.
Qed.

End Waiting.

Lemma poll_for_tag_never_leaves_without_tag_witness :
  fst (poll_for_tag Decimal.float example_client 50
         (fresh_world [Chunk ("E4_Gsr 10,5 0,25" ++ lf); Silence;
                       Chunk ("R pause OFF" ++ lf)]))
  = Unfinished.
Proof.
  apply (poll_for_tag_never_leaves_without_tag Q Decimal.float example_client).
  repeat constructor; apply withoutb_sound; reflexivity.
Defined.

(** X17.  [run] and [pause] read one text and set [self.running] whatever
    that text is: [run] does not look at it, [pause] only logs when it is not
    the awaited acknowledgement.  When the read times out, the exception goes
    to the caller and [self.running] keeps its value. *)
Theorem run_and_pause_set_running
        (self : E4Client) (w : world) :
  (forall reply rest,
      inbox w = Chunk reply :: rest ->
      (fst (run self w) = Ok tt /\ running (snd (run self w)) = Some true
       /\ inbox (snd (run self w)) = rest
       /\ logged ERROR (snd (run self w)) = logged ERROR w)
      /\ (fst (pause self w) = Ok tt /\ running (snd (pause self w)) = Some false
          /\ inbox (snd (pause self w)) = rest
          /\ logged ERROR (snd (pause self w))
             = (logged ERROR w
                ++ (if String.eqb reply PAUSE_ON_ACK then []
                    else ["Could not pause stream."]))%list))
  /\ (forall rest,
        inbox w = [] \/ inbox w = Silence :: rest ->
        (fst (run self w) = Raise SocketTimeout
         /\ running (snd (run self w)) = running w)
        /\ (fst (pause self w) = Raise SocketTimeout
            /\ running (snd (pause self w)) = running w)).
Proof.
  split.
  - intros reply rest Hinbox.
    destruct w as [tr i r]. cbn [inbox] in Hinbox. subst i. split.
    + unfold run, _resume_stream, set_running.
      cbv beta delta [bind ret lift when log emit recv] iota.
      cbn [trace inbox running fst snd].
      rewrite <- !app_assoc, logged_app. cbn. rewrite app_nil_r.
      repeat split.
    + pose proof (performs_pause_stream self reply rest
                    {| trace := tr; inbox := Chunk reply :: rest; running := r |}
                    eq_refl) as [Hok [_ [Hlog [Hleft _]]]].
      unfold pause, set_running, bind.
      destruct (_pause_stream self _) as [[[]|e|] w1]; cbn [fst snd] in *;
        try discriminate.
      cbn [trace inbox running]. repeat split; assumption.
  - intros rest Hdry.
    destruct w as [tr i r]. cbn [inbox] in Hdry.
    destruct Hdry as [-> | ->]; split;
      unfold run, pause, _resume_stream, _pause_stream, set_running;
      cbv beta delta [bind ret lift when log emit recv] iota;
      cbn [trace inbox running fst snd]; split; reflexivity.
Qed.

Lemma run_and_pause_set_running_witness :
  running (snd (run example_client (fresh_world [Chunk "anything"]))) = Some true
  /\ running (snd (pause example_client (fresh_world [Chunk "anything"])))
     = Some false
  /\ fst (run example_client (fresh_world [])) = Raise SocketTimeout.
Proof.
  split; [|split].
  - exact (proj1 (proj2 (proj1 (proj1 (run_and_pause_set_running
                                         example_client
                                         (fresh_world [Chunk "anything"]))
                                 "anything" [] eq_refl)))).
  - exact (proj1 (proj2 (proj2 (proj1 (run_and_pause_set_running
                                         example_client
                                         (fresh_world [Chunk "anything"]))
                                 "anything" [] eq_refl)))).
  - exact (proj1 (proj1 (proj2 (run_and_pause_set_running
                                  example_client (fresh_world []))
                           [] (or_introl eq_refl)))).
Defined.
